(** * tools/createExamples_h5.py : the openPMD example writer

    A shallow embedding of the script's five functions over a model of the
    h5py file object, and the properties of the file they produce.

    The h5py file is a finite map from normalised paths to nodes (groups and
    datasets), every node with its attribute dictionary.  Python statements
    become computations in a state-and-exception monad: a raised exception
    stops the function, the mutations done before it stay in the file. *)

From Stdlib Require Import ZArith Ascii.
From Stdlib Require Import Floats.PrimFloat Floats.FloatOps Floats.SpecFloat.
From stdpp Require Import gmap strings list pretty.

Set Default Proof Using "Type".
(* The decimal literals of the script are read as the nearest binary64. *)
Set Warnings "-inexact-float".
Local Open Scope string_scope.
Local Open Scope list_scope.

(** ** Numbers *)

(** [np.float64] is the primitive binary64 float.  A dataset of dtype ['f4']
    holds binary32 numbers, kept here as the binary64 floats of the same
    value.  HDF5 converts a float64 when it is written: a value beyond the
    largest binary32 becomes an infinity, any other is rounded to the nearest
    binary32, ties to even. *)
Inductive dtype := F4 | F8.

Definition flt_max : float := 0x1.fffffep+127%float.

Definition to_f4 (x : float) : float :=
  if (flt_max <? abs x)%float
  then (if (x <? 0)%float then neg_infinity else infinity)
  else SF2Prim match Prim2SF x with
               | S754_finite s m e =>
                   binary_normalize 24 128 (cond_Zopp s (Zpos m)) e s
               | y => y
               end.

Definition cast (dt : dtype) (x : float) : float :=
  match dt with F4 => to_f4 x | F8 => x end.

(** A [np.complex128]. *)
Record complex := Complex { re : float; im : float }.

(** A 2-D numpy array: its shape and its elements in C (row-major) order. *)
Record ndarray (A : Type) := NdArray { shape : nat * nat; data : list A }.
Arguments NdArray {A} _ _.
Arguments shape {A} _.
Arguments data {A} _.

Definition array_wf {A} (a : ndarray A) : Prop :=
  length (data a) = (shape a).1 * (shape a).2.

(** [a.real] and [a.imag]. *)
Definition real (a : ndarray complex) : ndarray float :=
  NdArray (shape a) (re <$> data a).
Definition imag (a : ndarray complex) : ndarray float :=
  NdArray (shape a) (im <$> data a).

(** [np.full((h, w), x)]: [np.zeros((h, w))] is [full h w 0]. *)
Definition full {A} (h w : nat) (x : A) : ndarray A :=
  NdArray (h, w) (replicate (h * w) x).

(** ** The file *)

Inductive attr_value :=
| AStr (s : string)
| AFloat (x : float)
| AArray (xs : list float).

Inductive content :=
| Group
| Dataset (shp : list nat) (dt : dtype) (elems : list float).

Record node := Node { content_of : content; attrs : gmap string attr_value }.

Abbreviation path := (list string).
Abbreviation h5file := (gmap (list string) node).

(** [h5.File(name, "w")]: only the root group, without attributes. *)
Definition empty_file : h5file := {[ [] := Node Group ∅ ]}.

(** An HDF5 name is split at the slashes; empty components (a leading, a
    trailing or a doubled slash) do not count.  A component ["."], which
    HDF5 reads as the group it stands in, is kept as an ordinary name here:
    the model follows h5py on the names that have none, as all the names
    have that the script builds from what [setup_root_attr] writes. *)
Fixpoint split_path (acc s : string) : path :=
  match s with
  | EmptyString => match acc with EmptyString => [] | _ => [acc] end
  | String c s' =>
      if Ascii.eqb c "/"%char
      then match acc with
           | EmptyString => split_path "" s'
           | _ => acc :: split_path "" s'
           end
      else split_path (acc +:+ String c "") s'
  end.

Definition parse_path (s : string) : path := split_path "" s.

(** ** Exceptions and the monad *)

Inductive exn :=
| KeyError (msg : string)
| ValueError (msg : string)
| TypeError (msg : string)
| NameError (name : string).

Inductive result (A : Type) :=
| Ok (a : A)
| Raise (e : exn).
Arguments Ok {A} _.
Arguments Raise {A} _.

Definition H5 (A : Type) : Type := h5file → result A * h5file.

Global Instance H5_ret : MRet H5 := λ A a f, (Ok a, f).
Global Instance H5_bind : MBind H5 := λ A B k m f,
  match m f with
  | (Ok a, f') => k a f'
  | (Raise e, f') => (Raise e, f')
  end.

Definition raise {A} (e : exn) : H5 A := λ f, (Raise e, f).
Definition modify (g : h5file → h5file) : H5 unit := λ f, (Ok (), g f).

(** ** The h5py operations the script uses *)

(** The proper prefixes of a path: the groups a node lies in, root first. *)
Definition ancestors (p : path) : list path :=
  (λ n, take n p) <$> seq 0 (length p).

Definition is_dataset (f : h5file) (q : path) : bool :=
  match f !! q with
  | Some (Node (Dataset _ _ _) _) => true
  | _ => false
  end.

(** A link can be created where no link is yet and no enclosing name is a
    dataset. *)
Definition creatable (f : h5file) (p : path) : bool :=
  match f !! p with
  | None => forallb (λ q, negb (is_dataset f q)) (ancestors p)
  | Some _ => false
  end.

(** h5py creates the missing intermediate groups. *)
Definition with_ancestors (f : h5file) (p : path) : h5file :=
  foldr (λ q m, match m !! q with
                | None => <[q := Node Group ∅]> m
                | Some _ => m
                end) f (ancestors p).

Definition create_node (name : string) (c : content) : H5 unit :=
  λ f, let p := parse_path name in
       if creatable f p
       then (Ok (), <[p := Node c ∅]> (with_ancestors f p))
       else (Raise (ValueError "Unable to create link (name already exists)"), f).

(** [f.create_group(name)]. *)
Definition create_group (name : string) : H5 unit := create_node name Group.

(** [f.create_dataset(name, shape, dtype=dt)]: filled with zeros. *)
Definition create_dataset (name : string) (shp : list nat) (dt : dtype) : H5 unit :=
  create_node name (Dataset shp dt (replicate (foldr Nat.mul 1 shp) 0%float)).

(** [f[name]]. *)
Definition getitem (name : string) : H5 node :=
  λ f, match f !! parse_path name with
       | Some n => (Ok n, f)
       | None => (Raise (KeyError "Unable to open object (component not found)"), f)
       end.

(** [f[name].attrs[k] = v]. *)
Definition set_attr (name k : string) (v : attr_value) : H5 unit :=
  n ← getitem name;
  modify <[parse_path name := Node (content_of n) (<[k := v]> (attrs n))]>.

(** [f[name].attrs[k]]. *)
Definition get_attr (name k : string) : H5 attr_value :=
  n ← getitem name;
  match attrs n !! k with
  | Some v => mret v
  | None => raise (KeyError "Can't open attribute (can't locate attribute)")
  end.

(** The script reads attributes only to concatenate them into a path. *)
Definition get_str_attr (name k : string) : H5 string :=
  v ← get_attr name k;
  match v with
  | AStr s => mret s
  | _ => raise (TypeError "unsupported operand type(s) for +")
  end.

(** The elements [d] of a dataset with layer [k], of [hw] elements,
    replaced by [src]. *)
Definition fill_layer (k hw : nat) (d src : list float) : list float :=
  take (k * hw) d ++ src ++ drop (S k * hw) d.

(** [f[name][k,:,:] = src] on a 3-D dataset and [f[name][:,:] = src] on a
    2-D one.  The writers only assign sources of the selection's shape; any
    other source is refused here, where h5py would first try to broadcast. *)
Definition set_layer (name : string) (k : nat) (src : ndarray float) : H5 unit :=
  n ← getitem name;
  match content_of n with
  | Dataset [l; h; w] dt d =>
      if bool_decide (k < l ∧ shape src = (h, w))
      then modify <[parse_path name :=
                     Node (Dataset [l; h; w] dt
                             (fill_layer k (h * w) d (cast dt <$> data src)))
                          (attrs n)]>
      else raise (TypeError "Can't broadcast")
  | _ => raise (TypeError "Illegal slicing argument")
  end.

Definition set_all (name : string) (src : ndarray float) : H5 unit :=
  n ← getitem name;
  match content_of n with
  | Dataset [h; w] dt d =>
      if bool_decide (shape src = (h, w))
      then modify <[parse_path name :=
                     Node (Dataset [h; w] dt (cast dt <$> data src)) (attrs n)]>
      else raise (TypeError "Can't broadcast")
  | _ => raise (TypeError "Illegal slicing argument")
  end.

(** ** The script *)

(** The reading of the local clock, [datetime.datetime.now(tzlocal())]; the
    UTC offset is in minutes. *)
Record datetime := DateTime {
  year : N; month : N; day : N;
  hour : N; minute : N; second : N;
  utcoffset : Z
}.

Definition pad2 (n : N) : string :=
  if (n <? 10)%N then "0" +:+ pretty n else pretty n.

Definition pad4 (n : N) : string :=
  if (n <? 10)%N then "000" +:+ pretty n
  else if (n <? 100)%N then "00" +:+ pretty n
  else if (n <? 1000)%N then "0" +:+ pretty n
  else pretty n.

(** [t.strftime('%Y-%m-%d %H:%M:%S %z')]. *)
Definition strftime (t : datetime) : string :=
  pad4 (year t) +:+ "-" +:+ pad2 (month t) +:+ "-" +:+ pad2 (day t) +:+ " "
  +:+ pad2 (hour t) +:+ ":" +:+ pad2 (minute t) +:+ ":" +:+ pad2 (second t) +:+ " "
  +:+ (if (utcoffset t <? 0)%Z then "-" else "+")
  +:+ pad2 (Z.to_N (Z.abs (utcoffset t) / 60))
  +:+ pad2 (Z.to_N (Z.abs (utcoffset t) mod 60)).

(** [setup_root_attr(f, iteration)], run when the clock reads [now].
    ["/data/%d/" % iteration] prints the integer in decimal. *)
Definition setup_root_attr (iteration : Z) (now : datetime) : H5 unit :=
  set_attr "/" "version" (AStr "1.0.0") ;;
  set_attr "/" "basePath" (AStr ("/data/" +:+ pretty iteration +:+ "/")) ;;
  set_attr "/" "fieldsPath" (AStr "fields/") ;;
  set_attr "/" "particlesPath" (AStr "particles/") ;;
  set_attr "/" "iterationEncoding" (AStr "fileBased") ;;
  set_attr "/" "iterationFormat" (AStr "/data/%T/") ;;
  set_attr "/" "author" (AStr "Axel Huebl <a.huebl@hzdr.de>") ;;
  set_attr "/" "software" (AStr "OpenPMD Example Script") ;;
  set_attr "/" "date" (AStr (strftime now)) ;;
  set_attr "/" "comment" (AStr "This is a dummy file for test purposes.").

Definition add_EDPIC_attr_fields (fieldName : string) : H5 unit :=
  set_attr fieldName "fieldSolver" (AStr "Yee") ;;
  set_attr fieldName "fieldSolverOrder" (AFloat 2) ;;
  set_attr fieldName "fieldSmoothing" (AStr "none") ;;
  set_attr fieldName "currentSmoothing" (AStr "none") ;;
  set_attr fieldName "chargeCorrection" (AStr "none").

Definition add_EDPIC_attr_particles (particleName : string) : H5 unit :=
  set_attr particleName "particleShape" (AFloat 3) ;;
  set_attr particleName "currentDeposition" (AStr "Esirkepov") ;;
  set_attr particleName "particlePush" (AStr "Boris") ;;
  set_attr particleName "particleInterpolation" (AStr "Trilinear") ;;
  set_attr particleName "particleSmoothing" (AStr "none").

(** The helpers bound at the top level of the module, by name.  Calling a
    name that is not bound raises [NameError]. *)
Definition module_helpers : list (string * (string → H5 unit)) :=
  [ ("add_EDPIC_attr_fields", add_EDPIC_attr_fields);
    ("add_EDPIC_attr_particles", add_EDPIC_attr_particles) ].

Definition call_global (fn : string) (arg : string) : H5 unit :=
  match list_find (λ d, d.1 = fn) module_helpers with
  | Some (_, (_, body)) => body arg
  | None => raise (NameError fn)
  end.

Definition shape_mismatch : exn :=
  ValueError "`mode0` and `mode1` should have the same shape".

Definition write_rho_cylindrical (mode0 : ndarray float) (mode1 : ndarray complex)
  : H5 unit :=
  basePath ← get_str_attr "/" "basePath";
  fieldsPath ← get_str_attr "/" "fieldsPath";
  let full_rho_path := basePath +:+ fieldsPath +:+ "rho" in
  create_dataset full_rho_path [3; (shape mode0).1; (shape mode0).2] F4 ;;
  set_attr full_rho_path "geometry" (AStr "cylindrical") ;;
  set_attr full_rho_path "geometryParameters" (AStr "m=1; imag=+") ;;
  set_attr full_rho_path "unitSI" (AFloat 1) ;;
  set_attr full_rho_path "unitDimension" (AArray [-3; 0; 1; 1; 0; 0; 0]%float) ;;
  set_attr full_rho_path "time" (AFloat 0) ;;
  set_attr full_rho_path "timeUnitSI" (AFloat 1e-9) ;;
  set_attr full_rho_path "gridSpacing" (AArray [1; 1]%float) ;;
  set_attr full_rho_path "gridGlobalOffset" (AArray [0; 0]%float) ;;
  set_attr full_rho_path "position" (AArray [0; 0]%float) ;;
  set_attr full_rho_path "gridUnitSI" (AFloat 1) ;;
  set_attr full_rho_path "dataOrder" (AStr "C") ;;
  call_global "add_EDPIC_attr_fields" full_rho_path ;;
  if bool_decide (shape mode0 ≠ shape mode1)
  then raise shape_mismatch
  else
    set_layer full_rho_path 0 mode0 ;;
    set_layer full_rho_path 1 (real mode1) ;;
    set_layer full_rho_path 2 (imag mode1).

Definition write_e_2d_cartesian (data_ex data_ey data_ez : ndarray float) : H5 unit :=
  basePath ← get_str_attr "/" "basePath";
  fieldsPath ← get_str_attr "/" "fieldsPath";
  let full_e_path := basePath +:+ fieldsPath +:+ "E/" in
  create_dataset (full_e_path +:+ "x") [(shape data_ex).1; (shape data_ex).2] F4 ;;
  create_dataset (full_e_path +:+ "y") [(shape data_ey).1; (shape data_ey).2] F4 ;;
  create_dataset (full_e_path +:+ "z") [(shape data_ez).1; (shape data_ez).2] F4 ;;
  set_attr full_e_path "geometry" (AStr "cartesian") ;;
  set_attr full_e_path "gridSpacing" (AArray [1; 1]%float) ;;
  set_attr full_e_path "gridGlobalOffset" (AArray [0; 0]%float) ;;
  set_attr full_e_path "gridUnitSI" (AFloat 1) ;;
  set_attr full_e_path "dataOrder" (AStr "C") ;;
  set_attr full_e_path "unitDimension" (AArray [1; 1; -3; -1; 0; 0; 0]%float) ;;
  call_global "add_EDPIC_attr_fields" full_e_path ;;
  set_attr full_e_path "time" (AFloat 0) ;;
  set_attr full_e_path "timeUnitSI" (AFloat 1e-9) ;;
  set_attr (full_e_path +:+ "x") "position" (AArray [0; 0.5]%float) ;;
  set_attr (full_e_path +:+ "y") "position" (AArray [0.5; 0]%float) ;;
  set_attr (full_e_path +:+ "z") "position" (AArray [0; 0]%float) ;;
  set_all (full_e_path +:+ "x") data_ex ;;
  set_all (full_e_path +:+ "y") data_ey ;;
  set_all (full_e_path +:+ "z") data_ez.

Definition write_particles : H5 unit :=
  basePath ← get_str_attr "/" "basePath";
  particlesPath ← get_str_attr "/" "particlesPath";
  let fullParticlesPath := basePath +:+ particlesPath in
  create_group (fullParticlesPath +:+ "electrons/charge") ;;
  set_attr (fullParticlesPath +:+ "electrons/charge") "value" (AFloat (-1)) ;;
  set_attr (fullParticlesPath +:+ "electrons/charge") "unitSI" (AFloat 1.60217657e-19) ;;
  set_attr (fullParticlesPath +:+ "electrons/charge") "unitDimension"
    (AArray [0; 0; 1; 1; 0; 0; 0]%float) ;;
  create_group (fullParticlesPath +:+ "electrons/mass") ;;
  set_attr (fullParticlesPath +:+ "electrons/mass") "value" (AFloat 1) ;;
  set_attr (fullParticlesPath +:+ "electrons/mass") "unitSI" (AFloat 9.10938291e-31) ;;
  set_attr (fullParticlesPath +:+ "electrons/mass") "unitDimension"
    (AArray [0; 1; 0; 0; 0; 0; 0]%float) ;;
  set_attr (fullParticlesPath +:+ "electrons") "longName"
    (AStr "My first electron species") ;;
  call_global "addEDPICAttrParticles" (fullParticlesPath +:+ "electrons") ;;
  create_dataset (fullParticlesPath +:+ "electrons/weighting") [128] F4 ;;
  set_attr (fullParticlesPath +:+ "electrons/weighting") "unitSI" (AFloat 1) ;;
  set_attr (fullParticlesPath +:+ "electrons/weighting") "unitDimension"
    (AArray [0; 0; 0; 0; 0; 0; 0]%float) ;;
  create_dataset (fullParticlesPath +:+ "electrons/position/x") [128] F4 ;;
  create_dataset (fullParticlesPath +:+ "electrons/position/y") [128] F4 ;;
  create_dataset (fullParticlesPath +:+ "electrons/position/z") [128] F4 ;;
  set_attr (fullParticlesPath +:+ "electrons/position") "unitSI" (AFloat 1e-9) ;;
  set_attr (fullParticlesPath +:+ "electrons/position") "unitDimension"
    (AArray [1; 0; 0; 0; 0; 0; 0]%float) ;;
  create_dataset (fullParticlesPath +:+ "electrons/momentum/x") [128] F4 ;;
  create_dataset (fullParticlesPath +:+ "electrons/momentum/y") [128] F4 ;;
  create_dataset (fullParticlesPath +:+ "electrons/momentum/z") [128] F4 ;;
  set_attr (fullParticlesPath +:+ "electrons/momentum") "unitSI"
    (AFloat 1.60217657e-19) ;;
  set_attr (fullParticlesPath +:+ "electrons/momentum") "unitDimension"
    (AArray [1; 1; -1; 0; 0; 0; 0]%float).


(** ** Reading the file back *)

(** The attribute [k] of the node at [p], and of the root ([f.attrs[k]]). *)
Definition attr_at (f : h5file) (p : path) (k : string) : option attr_value :=
  n ← f !! p; attrs n !! k.

Definition root_attr (f : h5file) (k : string) : option attr_value :=
  attr_at f [] k.

(** Layer [k] of a 3-D dataset, [f[p][k,:,:]], in row-major order. *)
Definition layer (f : h5file) (p : path) (k : nat) : option (list float) :=
  match f !! p with
  | Some (Node (Dataset [l; h; w] _ d) _) =>
      if bool_decide (k < l) then Some (take (h * w) (drop (k * (h * w)) d)) else None
  | _ => None
  end.

(** The shape of the dataset at [p], [f[p].shape]. *)
Definition shape_at (f : h5file) (p : path) : option (list nat) :=
  match f !! p with
  | Some (Node (Dataset shp _ _) _) => Some shp
  | _ => None
  end.

(** The elements of the dataset at [p], [f[p][...]], in row-major order. *)
Definition data_at (f : h5file) (p : path) : option (list float) :=
  match f !! p with
  | Some (Node (Dataset _ _ d) _) => Some d
  | _ => None
  end.

Definition is_group (f : h5file) (p : path) : bool :=
  match f !! p with
  | Some (Node Group _) => true
  | _ => false
  end.

(** The file the script works on: [h5.File("example.h5", "w")] after
    [setup_root_attr(f, iteration=0)]. *)
Definition example_clock : datetime := DateTime 2015 6 1 12 0 0 120.
Definition example_root : h5file :=
  (setup_root_attr 0 example_clock empty_file).2.

(** ** The attribute dictionaries the writers leave *)

(** What [add_EDPIC_attr_fields] adds to a dictionary. *)
Definition edpic_fields (a : gmap string attr_value) : gmap string attr_value :=
  <["chargeCorrection" := AStr "none"]>
  (<["currentSmoothing" := AStr "none"]>
  (<["fieldSmoothing" := AStr "none"]>
  (<["fieldSolverOrder" := AFloat 2]>
  (<["fieldSolver" := AStr "Yee"]> a)))).

Definition rho_attrs : gmap string attr_value :=
  edpic_fields
  (<["dataOrder" := AStr "C"]>
  (<["gridUnitSI" := AFloat 1]>
  (<["position" := AArray [0; 0]%float]>
  (<["gridGlobalOffset" := AArray [0; 0]%float]>
  (<["gridSpacing" := AArray [1; 1]%float]>
  (<["timeUnitSI" := AFloat 1e-9]>
  (<["time" := AFloat 0]>
  (<["unitDimension" := AArray [-3; 0; 1; 1; 0; 0; 0]%float]>
  (<["unitSI" := AFloat 1]>
  (<["geometryParameters" := AStr "m=1; imag=+"]>
  (<["geometry" := AStr "cylindrical"]> ∅))))))))))).

Definition e_attrs : gmap string attr_value :=
  <["timeUnitSI" := AFloat 1e-9]>
  (<["time" := AFloat 0]>
  (edpic_fields
  (<["unitDimension" := AArray [1; 1; -3; -1; 0; 0; 0]%float]>
  (<["dataOrder" := AStr "C"]>
  (<["gridUnitSI" := AFloat 1]>
  (<["gridGlobalOffset" := AArray [0; 0]%float]>
  (<["gridSpacing" := AArray [1; 1]%float]>
  (<["geometry" := AStr "cartesian"]> ∅)))))))).

Definition charge_attrs : gmap string attr_value :=
  <["unitDimension" := AArray [0; 0; 1; 1; 0; 0; 0]%float]>
  (<["unitSI" := AFloat 1.60217657e-19]>
  (<["value" := AFloat (-1)]> ∅)).

Definition mass_attrs : gmap string attr_value :=
  <["unitDimension" := AArray [0; 1; 0; 0; 0; 0; 0]%float]>
  (<["unitSI" := AFloat 9.10938291e-31]>
  (<["value" := AFloat 1]> ∅)).

(** The arrays of a species, by their names below the species group. *)
Definition species_arrays : list path :=
  [ ["weighting"];
    ["position"; "x"]; ["position"; "y"]; ["position"; "z"];
    ["momentum"; "x"]; ["momentum"; "y"]; ["momentum"; "z"] ].

(** A component dataset of E: the rounded elements of its source and the
    stagger position. *)
Definition e_component (src : ndarray float) (pos : list float) : node :=
  Node (Dataset [(shape src).1; (shape src).2] F4 (to_f4 <$> data src))
       {[ "position" := AArray pos ]}.

(** Nothing is linked at [p] or below it, and no enclosing name is a
    dataset: a writer can make [p] a group of its own. *)
Definition vacant (f : h5file) (p : path) : Prop :=
  (∀ r, f !! (p ++ r) = None) ∧ (∀ a, a ∈ ancestors p → is_dataset f a = false).

(** The elements of the rho dataset: zeros when it is created, the three
    layers once they are filled. *)
Definition rho_zeros (mode0 : ndarray float) : list float :=
  replicate (3 * ((shape mode0).1 * ((shape mode0).2 * 1))) 0%float.

Definition rho_filled (mode0 : ndarray float) (mode1 : ndarray complex) : list float :=
  let hw := (shape mode0).1 * (shape mode0).2 in
  fill_layer 2 hw
    (fill_layer 1 hw
       (fill_layer 0 hw (rho_zeros mode0) (to_f4 <$> data mode0))
       (to_f4 <$> data (real mode1)))
    (to_f4 <$> data (imag mode1)).

(** ** The script's entry point *)

(** The lines under [if __name__ == "__main__"]: a new file, the root
    attributes for iteration 0, rho and E.  The arrays drawn with
    [np.random.rand(32,64)] are inputs, as is the clock; the value is the
    line printed at the end.  [writeParticles(f)] is commented out. *)
Definition main (now : datetime) (data_rho0 : ndarray float)
    (data_rho1 : ndarray complex) (data_ex data_ey data_ez : ndarray float)
  : result string * h5file :=
  (setup_root_attr 0 now ;;
   write_rho_cylindrical data_rho0 data_rho1 ;;
   write_e_2d_cartesian data_ex data_ey data_ez ;;
   (mret "File example.h5 created!" : H5 string)) empty_file.

(** No character of [s] is a slash. *)
Fixpoint no_slash (s : string) : bool :=
  match s with
  | EmptyString => true
  | String c s' => negb (Ascii.eqb c "/"%char) && no_slash s'
  end.

(** The error of h5py when a link is created under a name that is taken. *)
Definition name_exists : exn :=
  ValueError "Unable to create link (name already exists)".


(** What [add_EDPIC_attr_particles] adds to a dictionary. *)
Definition edpic_particles (a : gmap string attr_value) : gmap string attr_value :=
  <["particleSmoothing" := AStr "none"]>
  (<["particleInterpolation" := AStr "Trilinear"]>
  (<["particlePush" := AStr "Boris"]>
  (<["currentDeposition" := AStr "Esirkepov"]>
  (<["particleShape" := AFloat 3]> a)))).

(** What [setup_root_attr] adds to the root's dictionary. *)
Definition root_attrs (iteration : Z) (now : datetime) (a : gmap string attr_value)
  : gmap string attr_value :=
  <["comment" := AStr "This is a dummy file for test purposes."]>
  (<["date" := AStr (strftime now)]>
  (<["software" := AStr "OpenPMD Example Script"]>
  (<["author" := AStr "Axel Huebl <a.huebl@hzdr.de>"]>
  (<["iterationFormat" := AStr "/data/%T/"]>
  (<["iterationEncoding" := AStr "fileBased"]>
  (<["particlesPath" := AStr "particles/"]>
  (<["fieldsPath" := AStr "fields/"]>
  (<["basePath" := AStr ("/data/" +:+ pretty iteration +:+ "/")]>
  (<["version" := AStr "1.0.0"]> a))))))))).

(** ** Running the monad *)

Lemma bind_eq {A B} (m : H5 A) (k : A → H5 B) (f : h5file) :
  (m ≫= k) f = match m f with
               | (Ok a, f') => k a f'
               | (Raise e, f') => (Raise e, f')
               end.
Proof. reflexivity. Qed.

Lemma set_attr_insert (name k : string) (v : attr_value) (n : node) (f : h5file) :
  set_attr name k v (<[parse_path name := n]> f)
  = (Ok (), <[parse_path name := Node (content_of n) (<[k := v]> (attrs n))]> f).
Proof.
  unfold set_attr, getitem, modify. rewrite bind_eq, lookup_insert_eq.
  by rewrite insert_insert_eq.
Qed.

Lemma set_attr_at (p : path) (name k : string) (v : attr_value) (n : node)
  (f : h5file) :
  parse_path name = p →
  set_attr name k v (<[p := n]> f)
  = (Ok (), <[p := Node (content_of n) (<[k := v]> (attrs n))]> f).
Proof. intros <-. apply set_attr_insert. Qed.

Ltac h5_lookup :=
  repeat first
    [ rewrite lookup_insert_eq
    | rewrite lookup_insert_ne by (assumption || (apply not_eq_sym; assumption)) ];
  try eassumption; try reflexivity.

Ltac h5_set_attrs :=
  repeat (rewrite bind_eq; erewrite set_attr_at by (reflexivity || eassumption);
          cbv beta iota; cbn [content_of attrs]).

(** ** The root metadata *)

(** What [setup_root_attr] leaves in the root's attribute dictionary. *)
Lemma setup_root_attr_spec (i : Z) (now : datetime) (f : h5file) (r : node) :
  f !! [] = Some r →
  setup_root_attr i now f
  = (Ok (), <[ [] := Node (content_of r)
      (<["comment" := AStr "This is a dummy file for test purposes."]>
      (<["date" := AStr (strftime now)]>
      (<["software" := AStr "OpenPMD Example Script"]>
      (<["author" := AStr "Axel Huebl <a.huebl@hzdr.de>"]>
      (<["iterationFormat" := AStr "/data/%T/"]>
      (<["iterationEncoding" := AStr "fileBased"]>
      (<["particlesPath" := AStr "particles/"]>
      (<["fieldsPath" := AStr "fields/"]>
      (<["basePath" := AStr ("/data/" +:+ pretty i +:+ "/")]>
      (<["version" := AStr "1.0.0"]> (attrs r))))))))))) ]> f).
Proof.
  intros Hr. rewrite <-(insert_id f [] r Hr) at 1.
  unfold setup_root_attr. h5_set_attrs.
  erewrite set_attr_at by reflexivity. done.
Qed.

(** C8: after [setup_root_attr] ran with iteration [i], the root attributes
    are the literal version and path strings, [basePath] is the template
    ["/data/%d/"] filled with [i], and author, software, date and comment are
    strings. *)
Theorem setup_root_attr_attrs (i : Z) (now : datetime) (f : h5file) (r : node) :
  f !! [] = Some r →
  let g := (setup_root_attr i now f).2 in
  (setup_root_attr i now f).1 = Ok ()
  ∧ root_attr g "version" = Some (AStr "1.0.0")
  ∧ root_attr g "basePath" = Some (AStr ("/data/" +:+ pretty i +:+ "/"))
  ∧ root_attr g "fieldsPath" = Some (AStr "fields/")
  ∧ root_attr g "particlesPath" = Some (AStr "particles/")
  ∧ root_attr g "iterationEncoding" = Some (AStr "fileBased")
  ∧ root_attr g "iterationFormat" = Some (AStr "/data/%T/")
  ∧ root_attr g "author" = Some (AStr "Axel Huebl <a.huebl@hzdr.de>")
  ∧ root_attr g "software" = Some (AStr "OpenPMD Example Script")
  ∧ root_attr g "date" = Some (AStr (strftime now))
  ∧ root_attr g "comment" = Some (AStr "This is a dummy file for test purposes.").
Proof.
  intros Hr g. subst g. rewrite (setup_root_attr_spec i now f r Hr).
  unfold root_attr, attr_at. cbn [fst snd]. rewrite lookup_insert_eq.
  cbn [mbind option_bind attrs].
  repeat split; by simplify_map_eq.
Qed.

Lemma setup_root_attr_attrs_witness :
  root_attr (setup_root_attr 7 (DateTime 2015 6 1 12 0 0 120) empty_file).2 "basePath"
  = Some (AStr "/data/7/").
Proof.
  pose proof (setup_root_attr_attrs 7 (DateTime 2015 6 1 12 0 0 120)
                empty_file (Node Group ∅)) as H.
  apply H. reflexivity.
Defined.

(** ** Paths *)

Section paths.
Implicit Types (s t u acc : string) (p q : path).

Lemma string_app_cons c s t : String c s +:+ t = String c (s +:+ t).
Proof. reflexivity. Qed.

Lemma string_app_assoc s t u : (s +:+ t) +:+ u = s +:+ t +:+ u.
Proof.
  induction s as [|c s IH]; [done |]. by rewrite !string_app_cons, IH.
Qed.

Lemma string_app_slash_inj s t : s +:+ "/" = t +:+ "/" → s = t.
Proof.
  revert t. induction s as [|a s IH]; intros [|c t] H.
  - done.
  - rewrite string_app_cons in H. injection H as _ H. by destruct t.
  - rewrite string_app_cons in H. injection H as _ H. by destruct s.
  - rewrite !string_app_cons in H. injection H as -> H. f_equal. by apply IH.
Qed.

(** A slash ends the component that is being read. *)
Lemma split_path_slash acc u t :
  split_path acc (u +:+ String "/" t) = split_path acc u ++ split_path "" t.
Proof.
  revert acc. induction u as [|c u IH]; intros acc.
  - by destruct acc.
  - rewrite string_app_cons. simpl. destruct (Ascii.eqb c "/").
    + destruct acc; simpl; by rewrite IH.
    + apply IH.
Qed.

Lemma parse_path_child u t :
  parse_path (u +:+ "/" +:+ t) = parse_path u ++ parse_path t.
Proof. apply split_path_slash. Qed.

Lemma parse_path_trailing u : parse_path (u +:+ "/") = parse_path u.
Proof.
  unfold parse_path. rewrite split_path_slash. simpl. apply app_nil_r.
Qed.

Lemma elem_of_ancestors q p :
  q ∈ ancestors p ↔ ∃ n, n < length p ∧ q = take n p.
Proof.
  unfold ancestors. rewrite list_elem_of_fmap. split.
  - intros (n & -> & Hn). apply elem_of_seq in Hn. exists n. split; [lia | done].
  - intros (n & Hn & ->). exists n. split; [done |]. apply elem_of_seq. lia.
Qed.

Lemma ancestors_shorter q p : q ∈ ancestors p → length q < length p.
Proof.
  rewrite elem_of_ancestors. intros (n & Hn & ->). rewrite length_take. lia.
Qed.

Lemma ancestors_parent p c : p ∈ ancestors (p ++ [c]).
Proof.
  apply elem_of_ancestors. exists (length p). split.
  - rewrite length_app. simpl. lia.
  - by rewrite take_app_length.
Qed.

Lemma ancestors_app q p r : q ∈ ancestors p → q ∈ ancestors (p ++ r).
Proof.
  rewrite !elem_of_ancestors. intros (n & Hn & ->). exists n. split.
  - rewrite length_app. lia.
  - rewrite take_app_le by lia. done.
Qed.

(** The enclosing names of a child are those of its parent and the parent. *)
Lemma ancestors_child q p c :
  q ∈ ancestors (p ++ [c]) → q ∈ ancestors p ∨ q = p.
Proof.
  rewrite !elem_of_ancestors. intros (n & Hn & ->).
  rewrite length_app in Hn. simpl in Hn.
  destruct (decide (n = length p)) as [->|Hne].
  - right. by rewrite take_app_length.
  - left. exists n. split; [lia |]. rewrite take_app_le by lia. done.
Qed.

Lemma child_neq p (c d : string) : c ≠ d → p ++ [c] ≠ p ++ [d].
Proof. intros Hcd Heq. apply app_inv_head in Heq. congruence. Qed.

Lemma child_neq_parent p (c : string) : p ++ [c] ≠ p.
Proof.
  intros Heq. apply (f_equal length) in Heq. rewrite length_app in Heq.
  simpl in Heq. lia.
Qed.

End paths.

(** ** Creating links *)

Section create.
Implicit Types (f : h5file) (p q : path) (n : node) (c : content).

Lemma with_ancestors_lookup f p q :
  with_ancestors f p !! q
  = match f !! q with
    | Some n => Some n
    | None => if bool_decide (q ∈ ancestors p) then Some (Node Group ∅) else None
    end.
Proof.
  unfold with_ancestors. generalize (ancestors p). clear p.
  intros l. revert q. induction l as [|a l IH]; intros q; simpl.
  { by destruct (f !! q). }
  assert (Hcons : bool_decide (q ∈ a :: l)
                  = bool_decide (q = a) || bool_decide (q ∈ l)).
  { rewrite <-bool_decide_or. apply bool_decide_ext, elem_of_cons. }
  rewrite Hcons. clear Hcons.
  destruct (decide (q = a)) as [->|Hne].
  - rewrite (bool_decide_eq_true_2 (a = a)) by done. simpl.
    destruct (foldr _ f l !! a) as [na|] eqn:Ha.
    + rewrite IH. rewrite IH in Ha. destruct (f !! a); [done |].
      by destruct (bool_decide (a ∈ l)).
    + rewrite lookup_insert_eq. rewrite IH in Ha. by destruct (f !! a).
  - rewrite (bool_decide_eq_false_2 (q = a)) by done. simpl.
    destruct (foldr _ f l !! a) as [na|] eqn:Ha.
    + apply IH.
    + rewrite lookup_insert_ne by done. apply IH.
Qed.

Lemma with_ancestors_keeps f p q n :
  f !! q = Some n → with_ancestors f p !! q = Some n.
Proof. intros H. by rewrite with_ancestors_lookup, H. Qed.

Lemma with_ancestors_outside f p q :
  q ∉ ancestors p → with_ancestors f p !! q = f !! q.
Proof.
  intros H. rewrite with_ancestors_lookup. destruct (f !! q); [done |].
  by rewrite bool_decide_eq_false_2.
Qed.

Lemma with_ancestors_not_dataset f p q :
  is_dataset f q = false → is_dataset (with_ancestors f p) q = false.
Proof.
  unfold is_dataset. rewrite with_ancestors_lookup.
  destruct (f !! q) as [[[] ?]|]; try done. by case_bool_decide.
Qed.

Lemma creatable_spec f p :
  creatable f p = true
  ↔ f !! p = None ∧ ∀ q, q ∈ ancestors p → is_dataset f q = false.
Proof.
  unfold creatable. destruct (f !! p).
  - split; [done | by intros [? _]].
  - rewrite forallb_forall. split.
    + intros H. split; [done |]. intros q Hq.
      apply negb_true_iff, H. by apply list_elem_of_In.
    + intros [_ H] q Hq. apply negb_true_iff, H. by apply list_elem_of_In.
Qed.

Lemma create_node_ok f name c :
  creatable f (parse_path name) = true →
  create_node name c f
  = (Ok (), <[parse_path name := Node c ∅]> (with_ancestors f (parse_path name))).
Proof. unfold create_node. by intros ->. Qed.

Lemma create_node_refused f name c :
  creatable f (parse_path name) = false →
  create_node name c f
  = (Raise (ValueError "Unable to create link (name already exists)"), f).
Proof. unfold create_node. by intros ->. Qed.

(** A link made or changed at [p] leaves a name creatable that is not [p]
    and does not lie below it. *)
Lemma creatable_insert f p q n :
  creatable f q = true → q ≠ p → p ∉ ancestors q →
  creatable (<[p := n]> f) q = true.
Proof.
  rewrite !creatable_spec. intros [Hq Hanc] Hne Hpq. split.
  - by rewrite lookup_insert_ne.
  - intros a Ha. unfold is_dataset. rewrite lookup_insert_ne by (intros ->; done).
    by apply Hanc.
Qed.

Lemma creatable_with_ancestors f p q :
  creatable f q = true → q ∉ ancestors p →
  creatable (with_ancestors f p) q = true.
Proof.
  rewrite !creatable_spec. intros [Hq Hanc] Hqp. split.
  - by rewrite with_ancestors_outside.
  - intros a Ha. by apply with_ancestors_not_dataset, Hanc.
Qed.

Lemma child_not_ancestor p (c d : string) : p ++ [c] ∉ ancestors (p ++ [d]).
Proof.
  intros H%ancestors_shorter. rewrite !length_app in H. simpl in H. lia.
Qed.
End create.

(** ** The scalar field rho *)

Section rho.
Implicit Types (f : h5file) (p : path) (n : node).

Lemma get_str_attr_root f (k s : string) :
  root_attr f k = Some (AStr s) → get_str_attr "/" k f = (Ok s, f).
Proof.
  unfold root_attr, attr_at, get_str_attr, get_attr, getitem.
  rewrite !bind_eq. change (parse_path "/") with (@nil string).
  destruct (f !! []) as [r|]; [simpl | done].
  intros ->. done.
Qed.

Lemma call_fields : call_global "add_EDPIC_attr_fields" = add_EDPIC_attr_fields.
Proof. reflexivity. Qed.

Lemma add_EDPIC_attr_fields_at p (name : string) n f :
  parse_path name = p →
  add_EDPIC_attr_fields name (<[p := n]> f)
  = (Ok (), <[p := Node (content_of n) (edpic_fields (attrs n))]> f).
Proof.
  intros Hp. unfold add_EDPIC_attr_fields. h5_set_attrs.
  erewrite set_attr_at by eassumption. done.
Qed.

Lemma set_layer_at p (name : string) (k l h w : nat) dt d a (src : ndarray float) f :
  parse_path name = p → k < l → shape src = (h, w) →
  set_layer name k src (<[p := Node (Dataset [l; h; w] dt d) a]> f)
  = (Ok (), <[p := Node (Dataset [l; h; w] dt
                           (fill_layer k (h * w) d (cast dt <$> data src))) a]> f).
Proof.
  intros <- Hk Hs. unfold set_layer, getitem, modify.
  rewrite bind_eq, lookup_insert_eq. simpl.
  rewrite bool_decide_eq_true_2 by done. by rewrite insert_insert_eq.
Qed.

(** The writer, run on a file whose root names the base and fields paths
    and in which the name of rho is free. *)
Lemma write_rho_cylindrical_spec f (bp fp : string) mode0 mode1 :
  root_attr f "basePath" = Some (AStr bp) →
  root_attr f "fieldsPath" = Some (AStr fp) →
  let p := parse_path (bp +:+ fp +:+ "rho") in
  creatable f p = true →
  write_rho_cylindrical mode0 mode1 f
  = if bool_decide (shape mode0 ≠ shape mode1)
    then (Raise shape_mismatch,
          <[p := Node (Dataset [3; (shape mode0).1; (shape mode0).2] F4
                         (rho_zeros mode0)) rho_attrs]> (with_ancestors f p))
    else (Ok (),
          <[p := Node (Dataset [3; (shape mode0).1; (shape mode0).2] F4
                         (rho_filled mode0 mode1)) rho_attrs]> (with_ancestors f p)).
Proof.
  intros Hbp Hfp p Hc. unfold write_rho_cylindrical.
  rewrite bind_eq, (get_str_attr_root _ _ _ Hbp). cbv beta iota.
  rewrite bind_eq, (get_str_attr_root _ _ _ Hfp). cbv beta iota zeta.
  rewrite bind_eq. unfold create_dataset. rewrite create_node_ok by exact Hc.
  cbv beta iota. fold p. h5_set_attrs.
  rewrite bind_eq, call_fields.
  erewrite add_EDPIC_attr_fields_at by reflexivity. cbv beta iota.
  cbn [content_of attrs]. fold rho_attrs.
  case_bool_decide as Hshape; [done |].
  assert (shape mode1 = ((shape mode0).1, (shape mode0).2)) as Hs1.
  { rewrite <-Hshape. by destruct (shape mode0). }
  rewrite bind_eq.
  erewrite set_layer_at; [| reflexivity | lia | by destruct (shape mode0)].
  cbv beta iota. rewrite bind_eq.
  erewrite set_layer_at; [| reflexivity | lia | exact Hs1].
  cbv beta iota.
  erewrite set_layer_at; [| reflexivity | lia | exact Hs1].
  done.
Qed.

Lemma fill_layer_app (k hw : nat) (pre mid post src : list float) :
  length pre = k * hw → length mid = hw →
  fill_layer k hw (pre ++ mid ++ post) src = pre ++ src ++ post.
Proof.
  intros Hpre Hmid. unfold fill_layer.
  rewrite take_app_length' by done. do 2 f_equal.
  rewrite (app_assoc pre mid post). apply drop_app_length'.
  rewrite length_app. lia.
Qed.

(** On arrays that hold as many elements as their shape says, the three
    assignments lay the layers one after the other. *)
Lemma rho_filled_layers mode0 mode1 :
  array_wf mode0 → array_wf mode1 → shape mode0 = shape mode1 →
  rho_filled mode0 mode1
  = (to_f4 <$> data mode0) ++ (to_f4 <$> data (real mode1))
      ++ (to_f4 <$> data (imag mode1)).
Proof.
  unfold array_wf, rho_filled, rho_zeros. intros H0 H1 Hs. rewrite <-Hs in H1.
  set (hw := (shape mode0).1 * (shape mode0).2) in *.
  set (a := to_f4 <$> data mode0). set (b := to_f4 <$> data (real mode1)).
  set (c := to_f4 <$> data (imag mode1)).
  assert (length a = hw) as Ha by (subst a; by rewrite length_fmap).
  assert (length b = hw) as Hb by (subst b; simpl; by rewrite !length_fmap).
  assert (length c = hw) as Hc by (subst c; simpl; by rewrite !length_fmap).
  replace (3 * ((shape mode0).1 * ((shape mode0).2 * 1))) with (hw + (hw + hw))
    by (subst hw; lia).
  rewrite !replicate_add.
  assert (∀ post, fill_layer 0 hw (replicate hw 0%float ++ post) a = a ++ post)
    as E0.
  { intros post. apply (fill_layer_app 0 hw [] (replicate hw 0%float) post a);
      [done | by rewrite length_replicate]. }
  rewrite E0.
rewrite (fill_layer_app 1 hw a _ _ b) by (lia || by rewrite length_replicate).
  rewrite (app_assoc a b), <-(app_nil_r (replicate hw _)).
  rewrite (fill_layer_app 2 hw (a ++ b) _ [] c);
    [| rewrite length_app; lia | by rewrite length_replicate].
  by rewrite app_nil_r, <-app_assoc.
Qed.
End rho.

(** C1: on a file prepared for it, [write_rho_cylindrical] raises the
    shape-mismatch [ValueError] exactly when [mode0.shape] differs from
    [mode1.shape], and returns normally for every equal-shaped pair. *)
Theorem write_rho_cylindrical_raises (f : h5file) (bp fp : string)
    (mode0 : ndarray float) (mode1 : ndarray complex) :
  root_attr f "basePath" = Some (AStr bp) →
  root_attr f "fieldsPath" = Some (AStr fp) →
  creatable f (parse_path (bp +:+ fp +:+ "rho")) = true →
  ((write_rho_cylindrical mode0 mode1 f).1 = Raise shape_mismatch
   ↔ shape mode0 ≠ shape mode1)
  ∧ (shape mode0 = shape mode1 → (write_rho_cylindrical mode0 mode1 f).1 = Ok ()).
Proof.
  intros Hbp Hfp Hc.
  rewrite (write_rho_cylindrical_spec f bp fp mode0 mode1 Hbp Hfp Hc).
  case_bool_decide as Hs; simpl.
  - split; [done |]. intros Heq. by destruct Hs.
  - split; [| done]. split; [done | by intros []].
Qed.

Lemma write_rho_cylindrical_raises_witness :
  (write_rho_cylindrical (full 2 3 0.5%float) (full 3 2 (Complex 1 2)) example_root).1
  = Raise shape_mismatch.
Proof.
  apply (write_rho_cylindrical_raises example_root "/data/0/" "fields/");
    [vm_compute; reflexivity .. | done].
Defined.

(** C2, as the code has it: when the shapes differ the writer raises the
    shape-mismatch error after the rho dataset was created; the file then
    holds a rho dataset of shape 3 x H x W (H x W the shape of [mode0]) that
    is still all zeros and carries every rho attribute; every name that
    encloses rho is a group, an empty new one where it was missing, and apart
    from rho and these groups the file is as before. *)
Theorem write_rho_cylindrical_mismatch_state (f : h5file) (bp fp : string)
    (mode0 : ndarray float) (mode1 : ndarray complex) :
  root_attr f "basePath" = Some (AStr bp) →
  root_attr f "fieldsPath" = Some (AStr fp) →
  let p := parse_path (bp +:+ fp +:+ "rho") in
  creatable f p = true →
  shape mode0 ≠ shape mode1 →
  let g := (write_rho_cylindrical mode0 mode1 f).2 in
  (write_rho_cylindrical mode0 mode1 f).1 = Raise shape_mismatch
  ∧ g !! p = Some (Node (Dataset [3; (shape mode0).1; (shape mode0).2] F4
                     (replicate (3 * (shape mode0).1 * (shape mode0).2) 0%float))
                     rho_attrs)
  ∧ (∀ q, q ≠ p → q ∉ ancestors p → g !! q = f !! q)
  ∧ (∀ q n, f !! q = Some n → g !! q = Some n)
  ∧ (∀ q, q ∈ ancestors p → is_group g q = true)
  ∧ (∀ q, q ∈ ancestors p → f !! q = None → g !! q = Some (Node Group ∅)).
Proof.
  intros Hbp Hfp p Hc Hs g. subst g.
  rewrite (write_rho_cylindrical_spec f bp fp mode0 mode1 Hbp Hfp Hc).
  fold p. rewrite bool_decide_eq_true_2 by done. cbn [fst snd].
  assert (∀ q, q ∈ ancestors p → q ≠ p) as Hshort.
  { intros q Hq%ancestors_shorter ->. lia. }
  split; [done |]. split; [| split; [| split; [| split]]].
  - rewrite lookup_insert_eq. unfold rho_zeros. do 4 f_equal. lia.
  - intros q Hq Hanc. rewrite lookup_insert_ne by done.
    by apply with_ancestors_outside.
  - intros q n Hq. apply creatable_spec in Hc as [Hp _].
    rewrite lookup_insert_ne by congruence. by apply with_ancestors_keeps.
  - intros q Hq. unfold is_group.
    rewrite lookup_insert_ne by (apply not_eq_sym; by apply Hshort).
    rewrite with_ancestors_lookup.
    apply creatable_spec in Hc as [_ Hanc]. specialize (Hanc q Hq).
    unfold is_dataset in Hanc. destruct (f !! q) as [[[] ?]|]; try done.
    by rewrite bool_decide_eq_true_2.
  - intros q Hq Hnone.
    rewrite lookup_insert_ne by (apply not_eq_sym; by apply Hshort).
    rewrite with_ancestors_lookup, Hnone. by rewrite bool_decide_eq_true_2.
Qed.

Lemma write_rho_cylindrical_mismatch_state_witness :
  (write_rho_cylindrical (full 1 2 0%float) (full 2 2 (Complex 0 0)) example_root).1
  = Raise shape_mismatch.
Proof.
  apply (write_rho_cylindrical_mismatch_state example_root "/data/0/" "fields/");
    [vm_compute; reflexivity .. | done].
Defined.

(** C2 as stated fails: the mismatched call below leaves a rho dataset with
    its attributes in a file that had none. *)
Lemma write_rho_cylindrical_partial_write :
  let p := ["data"; "0"; "fields"; "rho"] in
  let g := (write_rho_cylindrical (full 1 2 0%float) (full 2 2 (Complex 0 0))
              example_root).2 in
  (write_rho_cylindrical (full 1 2 0%float) (full 2 2 (Complex 0 0)) example_root).1
  = Raise shape_mismatch
  ∧ example_root !! p = None
  ∧ shape_at g p = Some [3; 1; 2]
  ∧ attr_at g p "geometry" = Some (AStr "cylindrical")
  ∧ attr_at g p "unitSI" = Some (AFloat 1)
  ∧ g ≠ example_root.
Proof.
  repeat split; try (vm_compute; reflexivity).
  intros H. apply (f_equal (λ m, is_dataset m ["data"; "0"; "fields"; "rho"])) in H.
  vm_compute in H. discriminate.
Qed.

(** C3, as the code has it: for equal-shaped arrays the writer returns
    normally and the rho dataset has three layers: [mode0], the real part of
    [mode1] and its imaginary part, every element rounded to single precision,
    the dtype of the dataset.  A layer equals its source element for element
    when the source holds single-precision values. *)
Theorem write_rho_cylindrical_layers (f : h5file) (bp fp : string)
    (mode0 : ndarray float) (mode1 : ndarray complex) :
  root_attr f "basePath" = Some (AStr bp) →
  root_attr f "fieldsPath" = Some (AStr fp) →
  let p := parse_path (bp +:+ fp +:+ "rho") in
  creatable f p = true →
  array_wf mode0 → array_wf mode1 →
  shape mode0 = shape mode1 →
  let g := (write_rho_cylindrical mode0 mode1 f).2 in
  (write_rho_cylindrical mode0 mode1 f).1 = Ok ()
  ∧ shape_at g p = Some [3; (shape mode0).1; (shape mode0).2]
  ∧ layer g p 0 = Some (to_f4 <$> data mode0)
  ∧ layer g p 1 = Some (to_f4 <$> data (real mode1))
  ∧ layer g p 2 = Some (to_f4 <$> data (imag mode1))
  ∧ (Forall (λ x, to_f4 x = x) (data mode0) → layer g p 0 = Some (data mode0))
  ∧ (Forall (λ x, to_f4 x = x) (data (real mode1)) →
     layer g p 1 = Some (data (real mode1)))
  ∧ (Forall (λ x, to_f4 x = x) (data (imag mode1)) →
     layer g p 2 = Some (data (imag mode1))).
Proof.
  intros Hbp Hfp p Hc H0 H1 Hs g. subst g.
  rewrite (write_rho_cylindrical_spec f bp fp mode0 mode1 Hbp Hfp Hc).
  fold p. rewrite bool_decide_eq_false_2 by (by intros []). cbn [fst snd].
  rewrite (rho_filled_layers mode0 mode1 H0 H1 Hs).
  unfold shape_at, layer. rewrite lookup_insert_eq.
  rewrite !bool_decide_eq_true_2 by lia.
  set (hw := (shape mode0).1 * (shape mode0).2).
  set (a := to_f4 <$> data mode0). set (b := to_f4 <$> data (real mode1)).
  set (c := to_f4 <$> data (imag mode1)).
  assert (length a = hw) as Ha by (subst a; rewrite length_fmap; exact H0).
  assert (length b = hw) as Hb.
  { subst b hw. simpl. rewrite !length_fmap, Hs. exact H1. }
  assert (length c = hw) as Hc'.
  { subst c hw. simpl. rewrite !length_fmap, Hs. exact H1. }
  assert (take hw (drop (0 * hw) (a ++ b ++ c)) = a) as L0.
  { rewrite Nat.mul_0_l, drop_0. by rewrite take_app_length'. }
  assert (take hw (drop (1 * hw) (a ++ b ++ c)) = b) as L1.
  { rewrite Nat.mul_1_l, drop_app_length' by lia. by rewrite take_app_length'. }
  assert (take hw (drop (2 * hw) (a ++ b ++ c)) = c) as L2.
  { rewrite (app_assoc a b c), drop_app_length' by (rewrite length_app; lia).
    by rewrite take_ge by lia. }
  rewrite L0, L1, L2.
  assert (∀ l : list float, Forall (λ x, to_f4 x = x) l → to_f4 <$> l = l) as Hid.
  { intros l Hl. induction Hl as [|x l Hx _ IH]; [done |].
    by rewrite fmap_cons, Hx, IH. }
  repeat split; try done; intros Hrep; subst a b c; by rewrite Hid.
Qed.

Lemma write_rho_cylindrical_layers_witness :
  let mode0 := NdArray (1, 2) [0.5; 0.25]%float in
  let mode1 := NdArray (1, 2) [Complex 1 2; Complex 3 4]%float in
  layer (write_rho_cylindrical mode0 mode1 example_root).2
    (parse_path ("/data/0/" +:+ "fields/" +:+ "rho")) 0
  = Some (data mode0).
Proof.
  intros mode0 mode1.
  apply (write_rho_cylindrical_layers example_root "/data/0/" "fields/" mode0 mode1);
    try (vm_compute; reflexivity).
  repeat constructor.
Defined.

(** C3 as stated fails: a float64 that is no single-precision value is
    stored rounded, so layer 0 differs from [mode0]. *)
Lemma write_rho_cylindrical_rounds :
  let mode0 := NdArray (1, 1) [0.1%float] in
  let mode1 := NdArray (1, 1) [Complex 0 0] in
  let g := (write_rho_cylindrical mode0 mode1 example_root).2 in
  shape mode0 = shape mode1
  ∧ (write_rho_cylindrical mode0 mode1 example_root).1 = Ok ()
  ∧ layer g ["data"; "0"; "fields"; "rho"] 0 = Some [0.10000000149011612%float]
  ∧ layer g ["data"; "0"; "fields"; "rho"] 0 ≠ Some (data mode0).
Proof.
  repeat split; try (vm_compute; reflexivity).
  intros H.
  apply (f_equal (λ o, match o with Some [x] => Prim2SF x | _ => S754_nan end)) in H.
  vm_compute in H. discriminate.
Qed.

(** C5: for a 32 x 64 array of zeros and a 32 x 64 complex array of zeros
    the writer leaves a 3 x 32 x 64 dataset of zeros, with [unitDimension]
    [-3, 0, 1, 1, 0, 0, 0] and [geometryParameters] ["m=1; imag=+"]. *)
Theorem write_rho_cylindrical_zeros (f : h5file) (bp fp : string) :
  root_attr f "basePath" = Some (AStr bp) →
  root_attr f "fieldsPath" = Some (AStr fp) →
  let p := parse_path (bp +:+ fp +:+ "rho") in
  creatable f p = true →
  let mode0 := full 32 64 0%float in
  let mode1 := full 32 64 (Complex 0 0) in
  let g := (write_rho_cylindrical mode0 mode1 f).2 in
  (write_rho_cylindrical mode0 mode1 f).1 = Ok ()
  ∧ shape_at g p = Some [3; 32; 64]
  ∧ data_at g p = Some (replicate (3 * 32 * 64) 0%float)
  ∧ attr_at g p "unitDimension" = Some (AArray [-3; 0; 1; 1; 0; 0; 0]%float)
  ∧ attr_at g p "geometryParameters" = Some (AStr "m=1; imag=+").
Proof.
  intros Hbp Hfp p Hc mode0 mode1 g. subst g.
  rewrite (write_rho_cylindrical_spec f bp fp mode0 mode1 Hbp Hfp Hc).
  fold p. rewrite bool_decide_eq_false_2 by (by intros []). cbn [fst snd].
  unfold shape_at, data_at, attr_at. rewrite lookup_insert_eq.
  cbn [mbind option_bind attrs].
  assert (rho_filled mode0 mode1 = replicate (3 * 32 * 64) 0%float) as ->
    by (vm_compute; reflexivity).
  repeat split; vm_compute; reflexivity.
Qed.

Lemma write_rho_cylindrical_zeros_witness :
  data_at (write_rho_cylindrical (full 32 64 0%float) (full 32 64 (Complex 0 0))
             example_root).2
    (parse_path ("/data/0/" +:+ "fields/" +:+ "rho"))
  = Some (replicate (3 * 32 * 64) 0%float).
Proof.
  apply (write_rho_cylindrical_zeros example_root "/data/0/" "fields/");
    vm_compute; reflexivity.
Defined.

(** ** The vector field E *)

Section vector_field.
Implicit Types (f : h5file) (p q : path) (n : node).

Lemma parse_path_in_dir (dir c u : string) :
  dir = u +:+ "/" → parse_path (dir +:+ c) = parse_path dir ++ parse_path c.
Proof.
  intros ->. rewrite string_app_assoc.
  change ("/" +:+ c) with (String "/" c).
  by rewrite parse_path_trailing, <-parse_path_child.
Qed.

Lemma set_attr_lookup p (name k : string) (v : attr_value) n f :
  parse_path name = p → f !! p = Some n →
  set_attr name k v f
  = (Ok (), <[p := Node (content_of n) (<[k := v]> (attrs n))]> f).
Proof.
  intros Hp Hn. rewrite <-(insert_id f p n Hn) at 1.
  by rewrite (set_attr_at p) by done.
Qed.

Lemma set_all_lookup p (name : string) (h w : nat) dt d a (src : ndarray float) f :
  parse_path name = p → f !! p = Some (Node (Dataset [h; w] dt d) a) →
  shape src = (h, w) →
  set_all name src f
  = (Ok (), <[p := Node (Dataset [h; w] dt (cast dt <$> data src)) a]> f).
Proof.
  intros <- Hn Hs. unfold set_all, getitem, modify.
  rewrite bind_eq, Hn. simpl. by rewrite bool_decide_eq_true_2.
Qed.

Lemma vacant_child_creatable f p (c : string) :
  vacant f p → creatable f (p ++ [c]) = true.
Proof.
  intros [Hbelow Hanc]. apply creatable_spec. split; [apply Hbelow |].
  intros a [Ha| ->]%ancestors_child; [by apply Hanc |].
  unfold is_dataset. specialize (Hbelow []). rewrite app_nil_r in Hbelow.
  by rewrite Hbelow.
Qed.

Lemma with_ancestors_parent f p (c : string) :
  f !! p = None → with_ancestors f (p ++ [c]) !! p = Some (Node Group ∅).
Proof.
  intros Hp. rewrite with_ancestors_lookup, Hp.
  rewrite bool_decide_eq_true_2; [done | apply ancestors_parent].
Qed.

Lemma ancestors_sibling q p (c d : string) :
  q ∈ ancestors (p ++ [c]) → q ∈ ancestors (p ++ [d]).
Proof.
  intros [H| ->]%ancestors_child; [by apply ancestors_app | apply ancestors_parent].
Qed.

Lemma with_ancestors_is_Some f p q :
  q ∈ ancestors p → is_Some (with_ancestors f p !! q).
Proof.
  intros Hq. rewrite with_ancestors_lookup. destruct (f !! q); [done |].
  by rewrite bool_decide_eq_true_2.
Qed.

(** Once a child of [p] is there, making a second one adds no group. *)
Lemma with_ancestors_sibling f p (c d : string) n :
  with_ancestors (<[p ++ [c] := n]> (with_ancestors f (p ++ [c]))) (p ++ [d])
  = <[p ++ [c] := n]> (with_ancestors f (p ++ [c])).
Proof.
  apply map_eq. intros q. rewrite with_ancestors_lookup.
  destruct (_ !! q) eqn:Hq; [done |]. rewrite bool_decide_eq_false_2; [done |].
  intros Hanc%(ancestors_sibling _ _ d c).
  destruct (with_ancestors_is_Some f _ _ Hanc) as [n' Hn'].
  apply ancestors_shorter in Hanc.
  rewrite lookup_insert_ne in Hq by (intros <-; lia). congruence.
Qed.

Lemma with_ancestors_present f p :
  (∀ a, a ∈ ancestors p → is_Some (f !! a)) → with_ancestors f p = f.
Proof.
  intros Hall. apply map_eq. intros q. rewrite with_ancestors_lookup.
  destruct (f !! q) eqn:Hq; [done |]. rewrite bool_decide_eq_false_2; [done |].
  intros [n Hn]%Hall. congruence.
Qed.

Lemma with_ancestors_child f p (c : string) q :
  q ≠ p → with_ancestors f (p ++ [c]) !! q = with_ancestors f p !! q.
Proof.
  intros Hq. rewrite !with_ancestors_lookup. destruct (f !! q); [done |].
  apply (f_equal (λ b : bool, if b then _ else _)), bool_decide_ext. split.
  - by intros [H| ->]%ancestors_child.
  - apply ancestors_app.
Qed.

(** The writer, run on a file whose root names the base and fields paths
    and in which the name of E is vacant: the nodes it leaves. *)
Lemma write_e_2d_cartesian_spec f (bp fp : string)
    (data_ex data_ey data_ez : ndarray float) :
  root_attr f "basePath" = Some (AStr bp) →
  root_attr f "fieldsPath" = Some (AStr fp) →
  let pe := parse_path (bp +:+ fp +:+ "E/") in
  vacant f pe →
  ∃ g,
  write_e_2d_cartesian data_ex data_ey data_ez f = (Ok (), g)
  ∧ g !! pe = Some (Node Group e_attrs)
  ∧ g !! (pe ++ ["x"]) = Some (e_component data_ex [0; 0.5]%float)
  ∧ g !! (pe ++ ["y"]) = Some (e_component data_ey [0.5; 0]%float)
  ∧ g !! (pe ++ ["z"]) = Some (e_component data_ez [0; 0]%float)
  ∧ (∀ q, q ≠ pe → q ≠ pe ++ ["x"] → q ≠ pe ++ ["y"] → q ≠ pe ++ ["z"] →
          g !! q = with_ancestors f pe !! q).
Proof.
  intros Hbp Hfp pe Hvac.
  assert (∀ c, parse_path ((bp +:+ fp +:+ "E/") +:+ c) = pe ++ parse_path c)
    as Hchild.
  { intros c. apply (parse_path_in_dir _ _ (bp +:+ fp +:+ "E")).
    by rewrite !string_app_assoc. }
  pose proof (Hchild "x") as Hx. pose proof (Hchild "y") as Hy.
  pose proof (Hchild "z") as Hz.
  change (parse_path "x") with ["x"] in Hx. change (parse_path "y") with ["y"] in Hy.
  change (parse_path "z") with ["z"] in Hz. clear Hchild.
  assert (f !! pe = None) as Hpe.
  { destruct Hvac as [Hb _]. specialize (Hb []). by rewrite app_nil_r in Hb. }
  pose proof (child_neq_parent pe "x") as Nx.
  pose proof (child_neq_parent pe "y") as Ny.
  pose proof (child_neq_parent pe "z") as Nz.
  assert (pe ++ ["x"] ≠ pe ++ ["y"]) as Nxy by (by apply child_neq).
  assert (pe ++ ["x"] ≠ pe ++ ["z"]) as Nxz by (by apply child_neq).
  assert (pe ++ ["y"] ≠ pe ++ ["z"]) as Nyz by (by apply child_neq).
  eexists. split.
  { unfold write_e_2d_cartesian.
  rewrite bind_eq, (get_str_attr_root _ _ _ Hbp). cbv beta iota.
  rewrite bind_eq, (get_str_attr_root _ _ _ Hfp). cbv beta iota zeta.
  unfold create_dataset.
  assert (∀ c, creatable (with_ancestors f (pe ++ ["x"])) (pe ++ [c]) = true)
    as Hfree.
  { intros c. apply creatable_with_ancestors;
      [by apply vacant_child_creatable | apply child_not_ancestor]. }
  rewrite bind_eq, create_node_ok
    by (rewrite Hx; by apply vacant_child_creatable).
  cbv beta iota. rewrite Hx.
  rewrite bind_eq, create_node_ok
    by (rewrite Hy; apply creatable_insert;
        [apply Hfree | done | apply child_not_ancestor]).
  cbv beta iota. rewrite Hy, with_ancestors_sibling.
  rewrite bind_eq, create_node_ok
    by (rewrite Hz; repeat apply creatable_insert;
        first [apply Hfree | done | apply child_not_ancestor]).
  cbv beta iota. rewrite Hz.
  rewrite with_ancestors_present.
  2:{ intros a Ha%(ancestors_sibling _ _ "z" "x").
      pose proof (ancestors_shorter _ _ Ha) as Hlen.
      rewrite length_app in Hlen. simpl in Hlen.
      rewrite !lookup_insert_ne by (intros <-; rewrite length_app in Hlen; simpl in Hlen; lia).
      by apply with_ancestors_is_Some. }
  set (W := with_ancestors f (pe ++ ["x"])).
  assert (W !! pe = Some (Node Group ∅)) as HW by (by apply with_ancestors_parent).
  (* the attributes of the group *)
  rewrite bind_eq.
  erewrite (set_attr_lookup pe) by (reflexivity || by rewrite !lookup_insert_ne).
  cbv beta iota. cbn [content_of attrs]. h5_set_attrs.
  rewrite bind_eq, call_fields.
  erewrite add_EDPIC_attr_fields_at by reflexivity.
  cbv beta iota. cbn [content_of attrs]. h5_set_attrs. fold e_attrs.
  (* the stagger positions *)
  rewrite bind_eq.
  erewrite (set_attr_lookup (pe ++ ["x"])) by (exact Hx || h5_lookup).
  cbv beta iota. cbn [content_of attrs]. rewrite bind_eq.
  erewrite (set_attr_lookup (pe ++ ["y"])) by (exact Hy || h5_lookup).
  cbv beta iota. cbn [content_of attrs]. rewrite bind_eq.
  erewrite (set_attr_lookup (pe ++ ["z"])) by (exact Hz || h5_lookup).
  cbv beta iota. cbn [content_of attrs]. rewrite bind_eq.
  erewrite (set_all_lookup (pe ++ ["x"]));
    [| exact Hx | h5_lookup | by destruct (shape data_ex)].
  cbv beta iota. rewrite bind_eq.
  erewrite (set_all_lookup (pe ++ ["y"]));
    [| exact Hy | h5_lookup | by destruct (shape data_ey)].
  cbv beta iota.
  erewrite (set_all_lookup (pe ++ ["z"]));
    [| exact Hz | h5_lookup | by destruct (shape data_ez)].
  reflexivity. }
  unfold e_component. rewrite <-!insert_empty.
  repeat split; try by h5_lookup.
  intros q Hq Hqx Hqy Hqz. h5_lookup. by apply with_ancestors_child.
Qed.
End vector_field.

Lemma with_ancestors_vacant (f : h5file) (p r : path) :
  vacant f p → with_ancestors f p !! (p ++ r) = None.
Proof.
  intros [Hbelow _]. rewrite with_ancestors_lookup, Hbelow.
  rewrite bool_decide_eq_false_2; [done |].
  intros H%ancestors_shorter. rewrite length_app in H. lia.
Qed.

(** C4: the vector-field writer leaves exactly three links below the group E,
    the datasets x, y and z, of the shapes of the three arrays; the group
    carries the one set of geometry and grid attributes, and each dataset
    only its own [position]: [0.0, 0.5] for x, [0.5, 0.0] for y and
    [0.0, 0.0] for z. *)
Theorem write_e_2d_cartesian_components (f : h5file) (bp fp : string)
    (data_ex data_ey data_ez : ndarray float) :
  root_attr f "basePath" = Some (AStr bp) →
  root_attr f "fieldsPath" = Some (AStr fp) →
  let pe := parse_path (bp +:+ fp +:+ "E/") in
  vacant f pe →
  let g := (write_e_2d_cartesian data_ex data_ey data_ez f).2 in
  (write_e_2d_cartesian data_ex data_ey data_ez f).1 = Ok ()
  ∧ is_group g pe = true
  ∧ (∀ r, is_Some (g !! (pe ++ r)) ↔ r ∈ [[]; ["x"]; ["y"]; ["z"]])
  ∧ shape_at g (pe ++ ["x"]) = Some [(shape data_ex).1; (shape data_ex).2]
  ∧ shape_at g (pe ++ ["y"]) = Some [(shape data_ey).1; (shape data_ey).2]
  ∧ shape_at g (pe ++ ["z"]) = Some [(shape data_ez).1; (shape data_ez).2]
  ∧ attr_at g pe "geometry" = Some (AStr "cartesian")
  ∧ attr_at g pe "gridSpacing" = Some (AArray [1; 1]%float)
  ∧ attr_at g pe "gridGlobalOffset" = Some (AArray [0; 0]%float)
  ∧ attr_at g pe "gridUnitSI" = Some (AFloat 1)
  ∧ attr_at g pe "dataOrder" = Some (AStr "C")
  ∧ attrs <$> g !! (pe ++ ["x"]) = Some {[ "position" := AArray [0; 0.5]%float ]}
  ∧ attrs <$> g !! (pe ++ ["y"]) = Some {[ "position" := AArray [0.5; 0]%float ]}
  ∧ attrs <$> g !! (pe ++ ["z"]) = Some {[ "position" := AArray [0; 0]%float ]}.
Proof.
  intros Hbp Hfp pe Hvac g. subst g.
  destruct (write_e_2d_cartesian_spec f bp fp data_ex data_ey data_ez Hbp Hfp Hvac)
    as (g & -> & He & Hx & Hy & Hz & Hother).
  fold pe in He, Hx, Hy, Hz, Hother. cbn [fst snd].
  unfold is_group, shape_at, attr_at. rewrite He, Hx, Hy, Hz.
  cbn [mbind option_bind attrs fmap option_fmap option_map e_component].
  split; [done |]. split; [done |]. split; [| repeat split; vm_compute; reflexivity].
  intros r. split.
  - intros Hsome. destruct (decide (r ∈ [[]; ["x"]; ["y"]; ["z"]])) as [|Hr]; [done |].
    rewrite !not_elem_of_cons in Hr. destruct Hr as (H0 & H1 & H2 & H3 & _).
    rewrite Hother, with_ancestors_vacant in Hsome; [by destruct Hsome | done | ..].
    + intros Heq. apply H0. apply (app_inv_head pe). by rewrite app_nil_r.
    + by intros ?%app_inv_head.
    + by intros ?%app_inv_head.
    + by intros ?%app_inv_head.
  - rewrite !elem_of_cons. intros [->|[->|[->|[->|[]%elem_of_nil]]]].
    + rewrite app_nil_r, He. done.
    + rewrite Hx. done.
    + rewrite Hy. done.
    + rewrite Hz. done.
Qed.

Lemma example_root_vacant (p : path) : p ≠ [] → vacant example_root p.
Proof.
  intros Hp.
  assert (∀ q : path, q ≠ [] → example_root !! q = None) as Hnone.
  { intros q Hq. unfold example_root.
    rewrite (setup_root_attr_spec 0 example_clock empty_file (Node Group ∅)) by done.
    cbn [snd]. unfold empty_file. rewrite insert_singleton_eq.
    by apply lookup_singleton_ne. }
  split.
  - intros r. apply Hnone. by destruct p.
  - intros a Ha. unfold is_dataset.
    destruct (decide (a = [])) as [->|Hne]; [done | by rewrite Hnone].
Qed.

Lemma write_e_2d_cartesian_components_witness :
  shape_at (write_e_2d_cartesian (full 32 64 1%float) (full 32 64 1%float)
              (full 32 64 1%float) example_root).2
    (parse_path ("/data/0/" +:+ "fields/" +:+ "E/") ++ ["y"])
  = Some [32; 64].
Proof.
  apply (write_e_2d_cartesian_components example_root "/data/0/" "fields/"
           (full 32 64 1%float) (full 32 64 1%float) (full 32 64 1%float));
    [vm_compute; reflexivity .. | by apply example_root_vacant].
Defined.

(** C7 at the E group: the writer gives the group its [unitDimension] of
    seven numbers but no [unitSI], and no component dataset has one. *)
Theorem write_e_2d_cartesian_no_unitSI (f : h5file) (bp fp : string)
    (data_ex data_ey data_ez : ndarray float) :
  root_attr f "basePath" = Some (AStr bp) →
  root_attr f "fieldsPath" = Some (AStr fp) →
  let pe := parse_path (bp +:+ fp +:+ "E/") in
  vacant f pe →
  let g := (write_e_2d_cartesian data_ex data_ey data_ez f).2 in
  (write_e_2d_cartesian data_ex data_ey data_ez f).1 = Ok ()
  ∧ attr_at g pe "unitDimension" = Some (AArray [1; 1; -3; -1; 0; 0; 0]%float)
  ∧ attr_at g pe "unitSI" = None
  ∧ attr_at g (pe ++ ["x"]) "unitSI" = None
  ∧ attr_at g (pe ++ ["y"]) "unitSI" = None
  ∧ attr_at g (pe ++ ["z"]) "unitSI" = None.
Proof.
  intros Hbp Hfp pe Hvac g. subst g.
  destruct (write_e_2d_cartesian_spec f bp fp data_ex data_ey data_ez Hbp Hfp Hvac)
    as (g & -> & He & Hx & Hy & Hz & _).
  fold pe in He, Hx, Hy, Hz. cbn [fst snd].
  unfold attr_at. rewrite He, Hx, Hy, Hz.
  cbn [mbind option_bind attrs e_component].
  repeat split; vm_compute; reflexivity.
Qed.

Lemma write_e_2d_cartesian_no_unitSI_witness :
  attr_at (write_e_2d_cartesian (full 32 64 1%float) (full 32 64 1%float)
             (full 32 64 1%float) example_root).2
    (parse_path ("/data/0/" +:+ "fields/" +:+ "E/")) "unitSI"
  = None.
Proof.
  apply (write_e_2d_cartesian_no_unitSI example_root "/data/0/" "fields/"
           (full 32 64 1%float) (full 32 64 1%float) (full 32 64 1%float));
    [vm_compute; reflexivity .. | by apply example_root_vacant].
Defined.

(** ** The particle species *)

Section particles.
Implicit Types (f : h5file) (p q : path) (n : node).

Lemma parse_path_sub (u d c : string) :
  parse_path (u +:+ d +:+ "/" +:+ c) = parse_path (u +:+ d) ++ parse_path c.
Proof. rewrite <-string_app_assoc. apply parse_path_child. Qed.

(** The name the script calls at line 228 is bound nowhere. *)
Lemma call_unbound (arg : string) :
  call_global "addEDPICAttrParticles" arg
  = raise (NameError "addEDPICAttrParticles").
Proof. reflexivity. Qed.

(** The writer, run on a file whose root names the base and particles
    paths and in which the name of the species is vacant: it stops at the
    unbound name, and these are the nodes it has made by then. *)
Lemma write_particles_spec f (bp pp : string) :
  root_attr f "basePath" = Some (AStr bp) →
  root_attr f "particlesPath" = Some (AStr pp) →
  let pel := parse_path ((bp +:+ pp) +:+ "electrons") in
  vacant f pel →
  ∃ g,
  write_particles f = (Raise (NameError "addEDPICAttrParticles"), g)
  ∧ g !! pel
    = Some (Node Group {[ "longName" := AStr "My first electron species" ]})
  ∧ g !! (pel ++ ["charge"]) = Some (Node Group charge_attrs)
  ∧ g !! (pel ++ ["mass"]) = Some (Node Group mass_attrs)
  ∧ (∀ q, q ≠ pel → q ≠ pel ++ ["charge"] → q ≠ pel ++ ["mass"] →
          g !! q = with_ancestors f pel !! q).
Proof.
  intros Hbp Hpp pel Hvac.
  pose proof (parse_path_sub (bp +:+ pp) "electrons" "charge") as Hc.
  pose proof (parse_path_sub (bp +:+ pp) "electrons" "mass") as Hm.
  change (parse_path "charge") with ["charge"] in Hc.
  change (parse_path "mass") with ["mass"] in Hm.
  change ("electrons" +:+ "/" +:+ "charge") with "electrons/charge" in Hc.
  change ("electrons" +:+ "/" +:+ "mass") with "electrons/mass" in Hm.
  fold pel in Hc, Hm.
  assert (f !! pel = None) as Hpel.
  { destruct Hvac as [Hb _]. specialize (Hb []). by rewrite app_nil_r in Hb. }
  pose proof (child_neq_parent pel "charge") as Nc.
  pose proof (child_neq_parent pel "mass") as Nm.
  assert (pel ++ ["charge"] ≠ pel ++ ["mass"]) as Ncm by (by apply child_neq).
  eexists. split.
  { unfold write_particles.
    rewrite bind_eq, (get_str_attr_root _ _ _ Hbp). cbv beta iota.
    rewrite bind_eq, (get_str_attr_root _ _ _ Hpp). cbv beta iota zeta.
    unfold create_group.
    rewrite bind_eq, create_node_ok
      by (rewrite Hc; by apply vacant_child_creatable).
    cbv beta iota. rewrite Hc. h5_set_attrs. fold charge_attrs.
    rewrite bind_eq, create_node_ok
      by (rewrite Hm; apply creatable_insert;
          [apply creatable_with_ancestors;
             [by apply vacant_child_creatable | apply child_not_ancestor]
          | done | apply child_not_ancestor]).
    cbv beta iota. rewrite Hm, with_ancestors_sibling. h5_set_attrs.
    fold mass_attrs.
    rewrite bind_eq.
    erewrite (set_attr_lookup pel)
      by (reflexivity || (h5_lookup; by apply with_ancestors_parent)).
    cbv beta iota. cbn [content_of attrs].
    rewrite call_unbound. reflexivity. }
  rewrite <-insert_empty.
  repeat split; try by h5_lookup.
  intros q Hq Hqc Hqm. h5_lookup. by apply with_ancestors_child.
Qed.
End particles.

(** C10: [write_particles] raises [NameError] for the unbound name
    [addEDPICAttrParticles]; by then the groups electrons/charge and
    electrons/mass exist with their [value], [unitSI] and [unitDimension]
    and the species has its [longName], and nothing else is linked below the
    species: none of the weighting, position and momentum datasets. *)
Theorem write_particles_name_error (f : h5file) (bp pp : string) :
  root_attr f "basePath" = Some (AStr bp) →
  root_attr f "particlesPath" = Some (AStr pp) →
  let pel := parse_path ((bp +:+ pp) +:+ "electrons") in
  vacant f pel →
  let g := (write_particles f).2 in
  (write_particles f).1 = Raise (NameError "addEDPICAttrParticles")
  ∧ ("addEDPICAttrParticles" ∉ module_helpers.*1)
  ∧ ("add_EDPIC_attr_particles" ∈ module_helpers.*1)
  ∧ is_group g (pel ++ ["charge"]) = true
  ∧ attr_at g (pel ++ ["charge"]) "value" = Some (AFloat (-1))
  ∧ attr_at g (pel ++ ["charge"]) "unitSI" = Some (AFloat 1.60217657e-19)
  ∧ attr_at g (pel ++ ["charge"]) "unitDimension"
    = Some (AArray [0; 0; 1; 1; 0; 0; 0]%float)
  ∧ is_group g (pel ++ ["mass"]) = true
  ∧ attr_at g (pel ++ ["mass"]) "value" = Some (AFloat 1)
  ∧ attr_at g (pel ++ ["mass"]) "unitSI" = Some (AFloat 9.10938291e-31)
  ∧ attr_at g (pel ++ ["mass"]) "unitDimension"
    = Some (AArray [0; 1; 0; 0; 0; 0; 0]%float)
  ∧ attr_at g pel "longName" = Some (AStr "My first electron species")
  ∧ (∀ r, is_Some (g !! (pel ++ r)) ↔ r ∈ [[]; ["charge"]; ["mass"]])
  ∧ Forall (λ r, g !! (pel ++ r) = None) species_arrays.
Proof.
  intros Hbp Hpp pel Hvac g. subst g.
  destruct (write_particles_spec f bp pp Hbp Hpp Hvac)
    as (g & -> & He & Hc & Hm & Hother).
  fold pel in He, Hc, Hm, Hother. cbn [fst snd].
  assert (∀ r, r ∉ [[]; ["charge"]; ["mass"]] → g !! (pel ++ r) = None) as Hnone.
  { intros r Hr. rewrite !not_elem_of_cons in Hr. destruct Hr as (H0 & H1 & H2 & _).
    rewrite Hother; [by apply with_ancestors_vacant | ..].
    - intros Heq. apply H0. apply (app_inv_head pel). by rewrite app_nil_r.
    - by intros ?%app_inv_head.
    - by intros ?%app_inv_head. }
  unfold is_group, attr_at. rewrite He, Hc, Hm.
  cbn [mbind option_bind attrs].
  split; [done |]. split.
  { cbn. rewrite !not_elem_of_cons. repeat split; (done || apply not_elem_of_nil). }
  split; [cbn; rewrite !elem_of_cons; auto |].
  do 9 (split; [vm_compute; reflexivity |]). split.
  - intros r. split.
    + intros Hsome.
      destruct (decide (r ∈ [[]; ["charge"]; ["mass"]])) as [|Hr]; [done |].
      rewrite Hnone in Hsome by done. by destruct Hsome.
    + rewrite !elem_of_cons. intros [->|[->|[->|[]%elem_of_nil]]].
      * by rewrite app_nil_r, He.
      * by rewrite Hc.
      * by rewrite Hm.
  - unfold species_arrays. repeat constructor; apply Hnone;
      rewrite !not_elem_of_cons; repeat split; (done || apply not_elem_of_nil).
Qed.

Lemma write_particles_name_error_witness :
  (write_particles example_root).1 = Raise (NameError "addEDPICAttrParticles").
Proof.
  apply (write_particles_name_error example_root "/data/0/" "particles/");
    [vm_compute; reflexivity .. | by apply example_root_vacant].
Defined.

(** C6 on the script's file: the call stops at the unbound name and the
    file has none of the seven 128-element arrays, nor a [unitSI] on
    weighting, position or momentum. *)
Theorem write_particles_creates_no_arrays :
  let pel := ["data"; "0"; "particles"; "electrons"] in
  let g := (write_particles example_root).2 in
  (write_particles example_root).1 = Raise (NameError "addEDPICAttrParticles")
  ∧ Forall (λ r, shape_at g (pel ++ r) = None) species_arrays
  ∧ attr_at g (pel ++ ["weighting"]) "unitSI" = None
  ∧ attr_at g (pel ++ ["position"]) "unitSI" = None
  ∧ attr_at g (pel ++ ["momentum"]) "unitSI" = None.
Proof.
  split; [vm_compute; reflexivity |].
  split; [| repeat split; vm_compute; reflexivity].
  repeat constructor; vm_compute; reflexivity.
Qed.

(** ** What varies in the root metadata *)

(** C9, as the code has it: the eight literal attributes are the same for
    any two calls; [basePath] is the same exactly when the iteration is, and
    [date] is the same when the clock reads the same. *)
Theorem setup_root_attr_varies (i j : Z) (t u : datetime) (f f' : h5file)
    (r r' : node) :
  f !! [] = Some r → f' !! [] = Some r' →
  let g := (setup_root_attr i t f).2 in
  let g' := (setup_root_attr j u f').2 in
  Forall (λ k, is_Some (root_attr g k) ∧ root_attr g k = root_attr g' k)
    ["version"; "fieldsPath"; "particlesPath"; "iterationEncoding";
     "iterationFormat"; "author"; "software"; "comment"]
  ∧ (root_attr g "basePath" = root_attr g' "basePath" ↔ i = j)
  ∧ (t = u → root_attr g "date" = root_attr g' "date")
  ∧ (i = j → t = u → attrs r = attrs r' →
     ∀ k, root_attr g k = root_attr g' k).
Proof.
  intros Hr Hr' g g'. subst g g'.
  rewrite (setup_root_attr_spec i t f r Hr), (setup_root_attr_spec j u f' r' Hr').
  unfold root_attr, attr_at. cbn [snd]. rewrite !lookup_insert_eq.
  cbn [mbind option_bind attrs].
  split; [| split; [| split]].
  - repeat (apply Forall_cons; split; [by simplify_map_eq |]). constructor.
  - simplify_map_eq. split.
    + intros [= H]. change (pretty i +:+ "/" = pretty j +:+ "/") in H.
      by apply string_app_slash_inj, (inj pretty) in H.
    + by intros ->.
  - intros ->. by simplify_map_eq.
  - by intros -> -> ->.
Qed.

Lemma setup_root_attr_varies_witness :
  root_attr (setup_root_attr 0 example_clock empty_file).2 "version"
  = root_attr (setup_root_attr 1 (DateTime 2016 1 2 3 4 5 0) empty_file).2 "version".
Proof.
  pose proof (setup_root_attr_varies 0 1 example_clock (DateTime 2016 1 2 3 4 5 0)
                empty_file empty_file (Node Group ∅) (Node Group ∅)
                eq_refl eq_refl) as [H _].
  apply Forall_cons in H as [[_ H] _]. exact H.
Defined.

(** C9 as stated fails: two calls that differ in the iteration write
    different [basePath] values, and two calls at different times different
    [date] values. *)
Lemma setup_root_attr_depends_on_iteration :
  root_attr (setup_root_attr 0 example_clock empty_file).2 "basePath"
  = Some (AStr "/data/0/")
  ∧ root_attr (setup_root_attr 1 example_clock empty_file).2 "basePath"
    = Some (AStr "/data/1/")
  ∧ root_attr (setup_root_attr 0 example_clock empty_file).2 "basePath"
    ≠ root_attr (setup_root_attr 1 example_clock empty_file).2 "basePath"
  ∧ root_attr (setup_root_attr 0 example_clock empty_file).2 "date"
    ≠ root_attr (setup_root_attr 0 (DateTime 2016 1 2 3 4 5 0) empty_file).2 "date".
Proof.
  repeat split; try (vm_compute; reflexivity); vm_compute; discriminate.
Qed.

(** ** Errors before anything is written *)

Section missing_attribute.
Implicit Types (f : h5file) (k : string).

Lemma get_str_attr_missing f k :
  root_attr f k = None →
  ∃ msg, get_str_attr "/" k f = (Raise (KeyError msg), f).
Proof.
  unfold root_attr, attr_at, get_str_attr, get_attr, getitem.
  rewrite !bind_eq. change (parse_path "/") with (@nil string).
  destruct (f !! []) as [r|]; simpl; [| by eauto].
  intros ->. by eauto.
Qed.

(** A computation that starts by reading a root attribute that is not there
    raises [KeyError] and leaves the file as it is. *)
Lemma bind_missing {B} f k (rest : string → H5 B) :
  root_attr f k = None →
  ∃ msg, (get_str_attr "/" k ≫= rest) f = (Raise (KeyError msg), f).
Proof.
  intros [msg Hmsg]%get_str_attr_missing. exists msg. by rewrite bind_eq, Hmsg.
Qed.
End missing_attribute.

(** X1: without [basePath] in the root (no [setup_root_attr] before), each
    writer raises [KeyError] and writes nothing. *)
Theorem writers_need_basePath (f : h5file) (mode0 : ndarray float)
    (mode1 : ndarray complex) (data_ex data_ey data_ez : ndarray float) :
  root_attr f "basePath" = None →
  (∃ msg, write_rho_cylindrical mode0 mode1 f = (Raise (KeyError msg), f))
  ∧ (∃ msg, write_e_2d_cartesian data_ex data_ey data_ez f = (Raise (KeyError msg), f))
  ∧ (∃ msg, write_particles f = (Raise (KeyError msg), f)).
Proof.
  intros H. repeat split; by apply bind_missing.
Qed.

Lemma writers_need_basePath_witness :
  ∃ msg, write_rho_cylindrical (full 2 2 1%float) (full 2 2 (Complex 0 0)) empty_file
         = (Raise (KeyError msg), empty_file).
Proof.
  apply (writers_need_basePath empty_file (full 2 2 1%float) (full 2 2 (Complex 0 0))
           (full 1 1 0%float) (full 1 1 0%float) (full 1 1 0%float)).
  vm_compute. reflexivity.
Defined.

(** X2: with [basePath] but without the sub-path attribute ([fieldsPath] for
    the fields, [particlesPath] for the species), the writer raises
    [KeyError] and writes nothing. *)
Theorem writers_need_subpath (f : h5file) (bp : string) (mode0 : ndarray float)
    (mode1 : ndarray complex) (data_ex data_ey data_ez : ndarray float) :
  root_attr f "basePath" = Some (AStr bp) →
  (root_attr f "fieldsPath" = None →
   (∃ msg, write_rho_cylindrical mode0 mode1 f = (Raise (KeyError msg), f))
   ∧ (∃ msg, write_e_2d_cartesian data_ex data_ey data_ez f
             = (Raise (KeyError msg), f)))
  ∧ (root_attr f "particlesPath" = None →
     ∃ msg, write_particles f = (Raise (KeyError msg), f)).
Proof.
  intros Hbp. split.
  - intros Hfp. split.
    + unfold write_rho_cylindrical.
      rewrite bind_eq, (get_str_attr_root _ _ _ Hbp). cbv beta iota.
      by apply bind_missing.
    + unfold write_e_2d_cartesian.
      rewrite bind_eq, (get_str_attr_root _ _ _ Hbp). cbv beta iota.
      by apply bind_missing.
  - intros Hpp. unfold write_particles.
    rewrite bind_eq, (get_str_attr_root _ _ _ Hbp). cbv beta iota.
    by apply bind_missing.
Qed.

Lemma writers_need_subpath_witness :
  ∃ msg, write_particles (<[ [] := Node Group {[ "basePath" := AStr "/data/0/" ]} ]> ∅)
         = (Raise (KeyError msg),
            <[ [] := Node Group {[ "basePath" := AStr "/data/0/" ]} ]> ∅).
Proof.
  apply (writers_need_subpath _ "/data/0/" (full 1 1 0%float) (full 1 1 (Complex 0 0))
           (full 1 1 0%float) (full 1 1 0%float) (full 1 1 0%float));
    vm_compute; reflexivity.
Defined.

(** ** Running a writer again *)

Section taken.
Implicit Types (f : h5file) (p : path).

Lemma creatable_taken f p : is_Some (f !! p) → creatable f p = false.
Proof. intros [n Hn]. unfold creatable. by rewrite Hn. Qed.

Lemma e_child_path (bp fp c : string) :
  parse_path ((bp +:+ fp +:+ "E/") +:+ c)
  = parse_path (bp +:+ fp +:+ "E/") ++ parse_path c.
Proof.
  apply (parse_path_in_dir _ _ (bp +:+ fp +:+ "E")). by rewrite !string_app_assoc.
Qed.

Lemma species_charge_path (u : string) :
  parse_path (u +:+ "electrons/charge") = parse_path (u +:+ "electrons") ++ ["charge"].
Proof. apply (parse_path_sub u "electrons" "charge"). Qed.

(** Where the name of rho is taken, the writer stops at [create_dataset]. *)
Lemma write_rho_cylindrical_taken f (bp fp : string) mode0 mode1 :
  root_attr f "basePath" = Some (AStr bp) →
  root_attr f "fieldsPath" = Some (AStr fp) →
  is_Some (f !! parse_path (bp +:+ fp +:+ "rho")) →
  write_rho_cylindrical mode0 mode1 f = (Raise name_exists, f).
Proof.
  intros Hbp Hfp Htaken. unfold write_rho_cylindrical.
  rewrite bind_eq, (get_str_attr_root _ _ _ Hbp). cbv beta iota.
  rewrite bind_eq, (get_str_attr_root _ _ _ Hfp). cbv beta iota zeta.
  rewrite bind_eq. unfold create_dataset.
  by rewrite create_node_refused by (by apply creatable_taken).
Qed.

Lemma write_e_2d_cartesian_taken f (bp fp : string) data_ex data_ey data_ez :
  root_attr f "basePath" = Some (AStr bp) →
  root_attr f "fieldsPath" = Some (AStr fp) →
  is_Some (f !! (parse_path (bp +:+ fp +:+ "E/") ++ ["x"])) →
  write_e_2d_cartesian data_ex data_ey data_ez f = (Raise name_exists, f).
Proof.
  intros Hbp Hfp Htaken. unfold write_e_2d_cartesian.
  rewrite bind_eq, (get_str_attr_root _ _ _ Hbp). cbv beta iota.
  rewrite bind_eq, (get_str_attr_root _ _ _ Hfp). cbv beta iota zeta.
  rewrite bind_eq. unfold create_dataset.
  by rewrite create_node_refused
    by (rewrite (e_child_path bp fp "x"); by apply creatable_taken).
Qed.

Lemma write_particles_taken f (bp pp : string) :
  root_attr f "basePath" = Some (AStr bp) →
  root_attr f "particlesPath" = Some (AStr pp) →
  is_Some (f !! (parse_path ((bp +:+ pp) +:+ "electrons") ++ ["charge"])) →
  write_particles f = (Raise name_exists, f).
Proof.
  intros Hbp Hpp Htaken. unfold write_particles.
  rewrite bind_eq, (get_str_attr_root _ _ _ Hbp). cbv beta iota.
  rewrite bind_eq, (get_str_attr_root _ _ _ Hpp). cbv beta iota zeta.
  rewrite bind_eq. unfold create_group.
  by rewrite create_node_refused
    by (rewrite species_charge_path; by apply creatable_taken).
Qed.

(** A writer that made its nodes below the root left the root as it was. *)
Lemma root_attr_insert f p (n : node) k :
  p ≠ [] → root_attr (<[p := n]> f) k = root_attr f k.
Proof. intros Hp. unfold root_attr, attr_at. by rewrite lookup_insert_ne. Qed.

Lemma root_attr_with_ancestors f p k :
  is_Some (f !! []) → root_attr (with_ancestors f p) k = root_attr f k.
Proof.
  intros [r Hr]. unfold root_attr, attr_at.
  by rewrite (with_ancestors_keeps f p [] r Hr), Hr.
Qed.

Lemma root_attr_is_Some f k v : root_attr f k = Some v → is_Some (f !! []).
Proof. unfold root_attr, attr_at. by destruct (f !! []). Qed.
End taken.

(** X3: [write_rho_cylindrical] cannot be run twice on a file.  After a
    first call, whether it returned or raised the shape-mismatch error, a
    second call with any arrays raises the name-exists error of
    [create_dataset] and leaves the file as the first call left it. *)
Theorem write_rho_cylindrical_twice (f : h5file) (bp fp : string)
    (mode0 mode0' : ndarray float) (mode1 mode1' : ndarray complex) :
  root_attr f "basePath" = Some (AStr bp) →
  root_attr f "fieldsPath" = Some (AStr fp) →
  creatable f (parse_path (bp +:+ fp +:+ "rho")) = true →
  let g := (write_rho_cylindrical mode0 mode1 f).2 in
  write_rho_cylindrical mode0' mode1' g = (Raise name_exists, g).
Proof.
  intros Hbp Hfp Hc g. subst g.
  assert (parse_path (bp +:+ fp +:+ "rho") ≠ []) as Hne.
  { intros Heq. apply creatable_spec in Hc as [Hnone _].
    apply root_attr_is_Some in Hbp as [r Hr]. rewrite Heq in Hnone. congruence. }
  pose proof (root_attr_is_Some _ _ _ Hbp) as Hroot.
  rewrite (write_rho_cylindrical_spec f bp fp mode0 mode1 Hbp Hfp Hc).
  case_bool_decide; cbn [snd];
    apply (write_rho_cylindrical_taken _ bp fp);
    rewrite ?root_attr_insert, ?root_attr_with_ancestors by done;
    try done; by rewrite lookup_insert_eq.
Qed.

Lemma write_rho_cylindrical_twice_witness :
  write_rho_cylindrical (full 1 2 0%float) (full 1 2 (Complex 0 0))
    (write_rho_cylindrical (full 1 2 0%float) (full 2 2 (Complex 0 0)) example_root).2
  = (Raise name_exists,
     (write_rho_cylindrical (full 1 2 0%float) (full 2 2 (Complex 0 0)) example_root).2).
Proof.
  apply (write_rho_cylindrical_twice example_root "/data/0/" "fields/");
    vm_compute; reflexivity.
Defined.

(** X4: [write_e_2d_cartesian] cannot be run twice: after a first call a
    second one raises the name-exists error at E/x and leaves the file as
    it was. *)
Theorem write_e_2d_cartesian_twice (f : h5file) (bp fp : string)
    (data_ex data_ey data_ez data_ex' data_ey' data_ez' : ndarray float) :
  root_attr f "basePath" = Some (AStr bp) →
  root_attr f "fieldsPath" = Some (AStr fp) →
  vacant f (parse_path (bp +:+ fp +:+ "E/")) →
  let g := (write_e_2d_cartesian data_ex data_ey data_ez f).2 in
  write_e_2d_cartesian data_ex' data_ey' data_ez' g = (Raise name_exists, g).
Proof.
  intros Hbp Hfp Hvac g. subst g.
  destruct (write_e_2d_cartesian_spec f bp fp data_ex data_ey data_ez Hbp Hfp Hvac)
    as (g & -> & He & Hx & Hy & Hz & Hother). cbn [snd].
  set (pe := parse_path (bp +:+ fp +:+ "E/")) in *.
  assert (g !! [] = f !! []) as Hroot.
  { apply root_attr_is_Some in Hbp as [r Hr].
    assert (pe ≠ []) as Hpe.
    { intros Heq. destruct Hvac as [Hb _]. specialize (Hb []).
      rewrite app_nil_r, Heq in Hb. congruence. }
    rewrite Hother; [by rewrite (with_ancestors_keeps f pe [] r Hr) | ..];
      by destruct pe. }
  apply (write_e_2d_cartesian_taken _ bp fp).
  - unfold root_attr, attr_at in *. by rewrite Hroot.
  - unfold root_attr, attr_at in *. by rewrite Hroot.
  - fold pe. by rewrite Hx.
Qed.

Lemma write_e_2d_cartesian_twice_witness :
  (write_e_2d_cartesian (full 1 1 0%float) (full 1 1 0%float) (full 1 1 0%float)
     (write_e_2d_cartesian (full 1 2 1%float) (full 1 2 1%float) (full 1 2 1%float)
        example_root).2).1
  = Raise name_exists.
Proof.
  rewrite (write_e_2d_cartesian_twice example_root "/data/0/" "fields/");
    [done | vm_compute; reflexivity .. | by apply example_root_vacant].
Defined.

(** X5: a second call of [write_particles] does not reach the unbound name:
    it raises the name-exists error at electrons/charge and leaves the file
    as the first call left it. *)
Theorem write_particles_twice (f : h5file) (bp pp : string) :
  root_attr f "basePath" = Some (AStr bp) →
  root_attr f "particlesPath" = Some (AStr pp) →
  vacant f (parse_path ((bp +:+ pp) +:+ "electrons")) →
  let g := (write_particles f).2 in
  write_particles g = (Raise name_exists, g).
Proof.
  intros Hbp Hpp Hvac g. subst g.
  destruct (write_particles_spec f bp pp Hbp Hpp Hvac)
    as (g & -> & He & Hc & Hm & Hother). cbn [snd].
  set (pel := parse_path ((bp +:+ pp) +:+ "electrons")) in *.
  assert (g !! [] = f !! []) as Hroot.
  { apply root_attr_is_Some in Hbp as [r Hr].
    assert (pel ≠ []) as Hpe.
    { intros Heq. destruct Hvac as [Hb _]. specialize (Hb []).
      rewrite app_nil_r, Heq in Hb. congruence. }
    rewrite Hother; [by rewrite (with_ancestors_keeps f pel [] r Hr) | ..];
      by destruct pel. }
  apply (write_particles_taken _ bp pp).
  - unfold root_attr, attr_at in *. by rewrite Hroot.
  - unfold root_attr, attr_at in *. by rewrite Hroot.
  - fold pel. by rewrite Hc.
Qed.

Lemma write_particles_twice_witness :
  (write_particles (write_particles example_root).2).1 = Raise name_exists.
Proof.
  rewrite (write_particles_twice example_root "/data/0/" "particles/");
    [done | vm_compute; reflexivity .. | by apply example_root_vacant].
Defined.

(** ** The attribute helpers and the root metadata *)

Ltac same_inserts :=
  apply map_eq; intros ?; rewrite !lookup_insert; repeat (case_decide; [done |]); done.

Section helpers.
Implicit Types (f : h5file) (p : path) (n : node) (a : gmap string attr_value).

Lemma edpic_fields_idemp a : edpic_fields (edpic_fields a) = edpic_fields a.
Proof. unfold edpic_fields. same_inserts. Qed.

Lemma edpic_particles_idemp a : edpic_particles (edpic_particles a) = edpic_particles a.
Proof. unfold edpic_particles. same_inserts. Qed.

Lemma root_attrs_last i t j u a : root_attrs j u (root_attrs i t a) = root_attrs j u a.
Proof. unfold root_attrs. same_inserts. Qed.

Lemma set_attr_missing (name k : string) v f :
  f !! parse_path name = None →
  ∃ msg, set_attr name k v f = (Raise (KeyError msg), f).
Proof.
  intros Hnone. unfold set_attr, getitem. rewrite bind_eq, Hnone. by eauto.
Qed.

Lemma add_EDPIC_attr_particles_at p (name : string) n f :
  parse_path name = p →
  add_EDPIC_attr_particles name (<[p := n]> f)
  = (Ok (), <[p := Node (content_of n) (edpic_particles (attrs n))]> f).
Proof.
  intros Hp. unfold add_EDPIC_attr_particles. h5_set_attrs.
  erewrite set_attr_at by eassumption. done.
Qed.

Lemma add_EDPIC_attr_fields_lookup (name : string) n f :
  f !! parse_path name = Some n →
  add_EDPIC_attr_fields name f
  = (Ok (), <[parse_path name := Node (content_of n) (edpic_fields (attrs n))]> f).
Proof.
  intros Hn. rewrite <-(insert_id f _ n Hn) at 1.
  by rewrite (add_EDPIC_attr_fields_at (parse_path name)).
Qed.

Lemma add_EDPIC_attr_particles_lookup (name : string) n f :
  f !! parse_path name = Some n →
  add_EDPIC_attr_particles name f
  = (Ok (), <[parse_path name := Node (content_of n) (edpic_particles (attrs n))]> f).
Proof.
  intros Hn. rewrite <-(insert_id f _ n Hn) at 1.
  by rewrite (add_EDPIC_attr_particles_at (parse_path name)).
Qed.

Lemma helpers_missing (name : string) f :
  f !! parse_path name = None →
  (∃ msg, add_EDPIC_attr_fields name f = (Raise (KeyError msg), f))
  ∧ (∃ msg, add_EDPIC_attr_particles name f = (Raise (KeyError msg), f)).
Proof.
  intros Hnone. split.
  - destruct (set_attr_missing name "fieldSolver" (AStr "Yee") f Hnone) as [msg H].
    exists msg. unfold add_EDPIC_attr_fields. by rewrite bind_eq, H.
  - destruct (set_attr_missing name "particleShape" (AFloat 3) f Hnone) as [msg H].
    exists msg. unfold add_EDPIC_attr_particles. by rewrite bind_eq, H.
Qed.

Lemma setup_root_attr_root_attrs i now f (r : node) :
  f !! [] = Some r →
  setup_root_attr i now f
  = (Ok (), <[ [] := Node (content_of r) (root_attrs i now (attrs r)) ]> f).
Proof. apply setup_root_attr_spec. Qed.
End helpers.

(** X6: on a name that is linked, [add_EDPIC_attr_fields] returns normally;
    the node keeps its content and every attribute it had under another key,
    has the five field attributes, and no other node changes. *)
Theorem add_EDPIC_attr_fields_adds (f : h5file) (fieldName : string) (n : node) :
  f !! parse_path fieldName = Some n →
  let g := (add_EDPIC_attr_fields fieldName f).2 in
  let p := parse_path fieldName in
  (add_EDPIC_attr_fields fieldName f).1 = Ok ()
  ∧ content_of <$> g !! p = Some (content_of n)
  ∧ attr_at g p "fieldSolver" = Some (AStr "Yee")
  ∧ attr_at g p "fieldSolverOrder" = Some (AFloat 2)
  ∧ attr_at g p "fieldSmoothing" = Some (AStr "none")
  ∧ attr_at g p "currentSmoothing" = Some (AStr "none")
  ∧ attr_at g p "chargeCorrection" = Some (AStr "none")
  ∧ (∀ k, k ∉ ["fieldSolver"; "fieldSolverOrder"; "fieldSmoothing";
               "currentSmoothing"; "chargeCorrection"] →
          attr_at g p k = attrs n !! k)
  ∧ (∀ q, q ≠ p → g !! q = f !! q).
Proof.
  intros Hn g p. subst g p. rewrite (add_EDPIC_attr_fields_lookup _ n f Hn).
  cbn [fst snd]. unfold attr_at. rewrite lookup_insert_eq.
  cbn [mbind option_bind fmap option_fmap option_map attrs content_of].
  unfold edpic_fields. repeat split; try by simplify_map_eq.
  - intros k Hk. rewrite !not_elem_of_cons in Hk.
    destruct Hk as (? & ? & ? & ? & ? & _). by rewrite !lookup_insert_ne.
  - intros q Hq. by rewrite lookup_insert_ne.
Qed.

Lemma add_EDPIC_attr_fields_adds_witness :
  attr_at (add_EDPIC_attr_fields "/" example_root).2 (parse_path "/") "version"
  = attrs (Node Group (root_attrs 0 example_clock ∅)) !! "version".
Proof.
  pose proof (add_EDPIC_attr_fields_adds example_root "/"
                (Node Group (root_attrs 0 example_clock ∅))) as H.
  apply H; [vm_compute; reflexivity |].
  rewrite !not_elem_of_cons. repeat split; (done || apply not_elem_of_nil).
Defined.

(** X7: the same for [add_EDPIC_attr_particles], the helper that no line of
    the script reaches: on a linked name it adds the five species attributes
    and changes nothing else. *)
Theorem add_EDPIC_attr_particles_adds (f : h5file) (particleName : string) (n : node) :
  f !! parse_path particleName = Some n →
  let g := (add_EDPIC_attr_particles particleName f).2 in
  let p := parse_path particleName in
  (add_EDPIC_attr_particles particleName f).1 = Ok ()
  ∧ content_of <$> g !! p = Some (content_of n)
  ∧ attr_at g p "particleShape" = Some (AFloat 3)
  ∧ attr_at g p "currentDeposition" = Some (AStr "Esirkepov")
  ∧ attr_at g p "particlePush" = Some (AStr "Boris")
  ∧ attr_at g p "particleInterpolation" = Some (AStr "Trilinear")
  ∧ attr_at g p "particleSmoothing" = Some (AStr "none")
  ∧ (∀ k, k ∉ ["particleShape"; "currentDeposition"; "particlePush";
               "particleInterpolation"; "particleSmoothing"] →
          attr_at g p k = attrs n !! k)
  ∧ (∀ q, q ≠ p → g !! q = f !! q).
Proof.
  intros Hn g p. subst g p. rewrite (add_EDPIC_attr_particles_lookup _ n f Hn).
  cbn [fst snd]. unfold attr_at. rewrite lookup_insert_eq.
  cbn [mbind option_bind fmap option_fmap option_map attrs content_of].
  unfold edpic_particles. repeat split; try by simplify_map_eq.
  - intros k Hk. rewrite !not_elem_of_cons in Hk.
    destruct Hk as (? & ? & ? & ? & ? & _). by rewrite !lookup_insert_ne.
  - intros q Hq. by rewrite lookup_insert_ne.
Qed.

Lemma add_EDPIC_attr_particles_adds_witness :
  attr_at (add_EDPIC_attr_particles "/data/0/particles/electrons"
             (write_particles example_root).2).2
    (parse_path "/data/0/particles/electrons") "particlePush"
  = Some (AStr "Boris").
Proof.
  apply (add_EDPIC_attr_particles_adds (write_particles example_root).2
           "/data/0/particles/electrons"
           (Node Group {[ "longName" := AStr "My first electron species" ]})).
  vm_compute. reflexivity.
Defined.

(** X8: on a name that is not linked, either helper raises [KeyError] at its
    first line and leaves the file as it is. *)
Theorem helpers_need_node (f : h5file) (name : string) :
  f !! parse_path name = None →
  (∃ msg, add_EDPIC_attr_fields name f = (Raise (KeyError msg), f))
  ∧ (∃ msg, add_EDPIC_attr_particles name f = (Raise (KeyError msg), f)).
Proof.
  intros Hnone. split.
  - destruct (set_attr_missing name "fieldSolver" (AStr "Yee") f Hnone) as [msg H].
    exists msg. unfold add_EDPIC_attr_fields. by rewrite bind_eq, H.
  - destruct (set_attr_missing name "particleShape" (AFloat 3) f Hnone) as [msg H].
    exists msg. unfold add_EDPIC_attr_particles. by rewrite bind_eq, H.
Qed.

Lemma helpers_need_node_witness :
  ∃ msg, add_EDPIC_attr_particles "/data/0/particles/electrons" example_root
         = (Raise (KeyError msg), example_root).
Proof.
  apply (helpers_need_node example_root "/data/0/particles/electrons").
  vm_compute. reflexivity.
Defined.

(** X9: the helpers only assign literals, so running one again changes
    nothing: twice is the same as once, also where the name is not linked and
    both runs raise. *)
Theorem helpers_idempotent (f : h5file) (name : string) :
  (add_EDPIC_attr_fields name ;; add_EDPIC_attr_fields name) f
  = add_EDPIC_attr_fields name f
  ∧ (add_EDPIC_attr_particles name ;; add_EDPIC_attr_particles name) f
    = add_EDPIC_attr_particles name f.
Proof.
  split; rewrite bind_eq.
  - destruct (f !! parse_path name) as [n|] eqn:Hn.
    + rewrite (add_EDPIC_attr_fields_lookup _ n f Hn).
      rewrite (add_EDPIC_attr_fields_at (parse_path name)) by done.
      cbn [content_of attrs]. by rewrite edpic_fields_idemp.
    + by destruct (proj1 (helpers_missing name f Hn)) as [msg ->].
  - destruct (f !! parse_path name) as [n|] eqn:Hn.
    + rewrite (add_EDPIC_attr_particles_lookup _ n f Hn).
      rewrite (add_EDPIC_attr_particles_at (parse_path name)) by done.
      cbn [content_of attrs]. by rewrite edpic_particles_idemp.
    + by destruct (proj2 (helpers_missing name f Hn)) as [msg ->].
Qed.

(** X10: of two calls of [setup_root_attr] the last one wins: the file is the
    one the second call alone would have made, whatever iteration and clock
    the first had. *)
Theorem setup_root_attr_last_wins (f : h5file) (i j : Z) (t u : datetime) :
  (setup_root_attr i t ;; setup_root_attr j u) f = setup_root_attr j u f.
Proof.
  rewrite bind_eq. destruct (f !! []) as [r|] eqn:Hr.
  - rewrite (setup_root_attr_root_attrs i t f r Hr).
    rewrite (setup_root_attr_root_attrs j u _ (Node (content_of r)
               (root_attrs i t (attrs r)))) by apply lookup_insert_eq.
    rewrite (setup_root_attr_root_attrs j u f r Hr).
    cbn [content_of attrs]. by rewrite insert_insert_eq, root_attrs_last.
  - destruct (set_attr_missing "/" "version" (AStr "1.0.0") f Hr) as [msg H].
    unfold setup_root_attr. by rewrite !bind_eq, H.
Qed.

(** X11: [setup_root_attr] touches the root's attributes only: every other
    node, the root's content and the root attributes under other keys than
    its ten stay as they were. *)
Theorem setup_root_attr_frame (f : h5file) (i : Z) (now : datetime) (r : node) :
  f !! [] = Some r →
  let g := (setup_root_attr i now f).2 in
  (∀ q, q ≠ [] → g !! q = f !! q)
  ∧ content_of <$> g !! [] = Some (content_of r)
  ∧ (∀ k, k ∉ ["version"; "basePath"; "fieldsPath"; "particlesPath";
               "iterationEncoding"; "iterationFormat"; "author"; "software";
               "date"; "comment"] →
          root_attr g k = attrs r !! k).
Proof.
  intros Hr g. subst g. rewrite (setup_root_attr_root_attrs i now f r Hr).
  cbn [snd]. unfold root_attr, attr_at. rewrite lookup_insert_eq.
  cbn [mbind option_bind fmap option_fmap option_map attrs content_of].
  split; [| split; [done |]].
  - intros q Hq. by rewrite lookup_insert_ne.
  - intros k Hk. rewrite !not_elem_of_cons in Hk.
    destruct Hk as (? & ? & ? & ? & ? & ? & ? & ? & ? & ? & _).
    unfold root_attrs. by rewrite !lookup_insert_ne.
Qed.

Lemma setup_root_attr_frame_witness :
  (setup_root_attr 5 example_clock (write_particles example_root).2).2
    !! ["data"; "0"; "particles"; "electrons"; "mass"]
  = (write_particles example_root).2 !! ["data"; "0"; "particles"; "electrons"; "mass"].
Proof.
  eapply (setup_root_attr_frame (write_particles example_root).2 5 example_clock);
    [vm_compute; reflexivity | done].
Defined.

(** ** All that the field writers leave *)

(** X12: whatever the arrays, equal-shaped or not, rho carries the same
    sixteen attributes; every node the file had is kept, and the only other
    new nodes are empty groups for the enclosing names that were missing. *)
Theorem write_rho_cylindrical_attrs_and_frame (f : h5file) (bp fp : string)
    (mode0 : ndarray float) (mode1 : ndarray complex) :
  root_attr f "basePath" = Some (AStr bp) →
  root_attr f "fieldsPath" = Some (AStr fp) →
  let p := parse_path (bp +:+ fp +:+ "rho") in
  creatable f p = true →
  let g := (write_rho_cylindrical mode0 mode1 f).2 in
  (let written :=
      [ ("geometry", AStr "cylindrical"); ("geometryParameters", AStr "m=1; imag=+");
        ("unitSI", AFloat 1); ("unitDimension", AArray [-3; 0; 1; 1; 0; 0; 0]%float);
        ("time", AFloat 0); ("timeUnitSI", AFloat 1e-9);
        ("gridSpacing", AArray [1; 1]%float);
        ("gridGlobalOffset", AArray [0; 0]%float);
        ("position", AArray [0; 0]%float); ("gridUnitSI", AFloat 1);
        ("dataOrder", AStr "C"); ("fieldSolver", AStr "Yee");
        ("fieldSolverOrder", AFloat 2); ("fieldSmoothing", AStr "none");
        ("currentSmoothing", AStr "none"); ("chargeCorrection", AStr "none") ] in
   Forall (λ kv, attr_at g p kv.1 = Some kv.2) written
   ∧ ∀ k, k ∉ written.*1 → attr_at g p k = None)
  ∧ (∀ q n, f !! q = Some n → g !! q = Some n)
  ∧ (∀ q, f !! q = None → q ≠ p →
          g !! q = if bool_decide (q ∈ ancestors p) then Some (Node Group ∅) else None).
Proof.
  intros Hbp Hfp p Hc g. subst g.
  rewrite (write_rho_cylindrical_spec f bp fp mode0 mode1 Hbp Hfp Hc). fold p.
  assert (∀ d k, attr_at (<[p := Node d rho_attrs]> (with_ancestors f p)) p k
                 = rho_attrs !! k) as Hattrs.
  { intros d k. unfold attr_at. by rewrite lookup_insert_eq. }
  assert (∀ nd q n, f !! q = Some n →
            (<[p := nd]> (with_ancestors f p)) !! q = Some n) as Hkeep.
  { intros nd q n Hq. apply creatable_spec in Hc as [Hp _].
    rewrite lookup_insert_ne by congruence. by apply with_ancestors_keeps. }
  assert (∀ nd q, f !! q = None → q ≠ p →
            (<[p := nd]> (with_ancestors f p)) !! q
            = if bool_decide (q ∈ ancestors p) then Some (Node Group ∅) else None)
    as Hnew.
  { intros nd q Hq Hne. rewrite lookup_insert_ne by done.
    by rewrite with_ancestors_lookup, Hq. }
  case_bool_decide; cbn [snd]; (split; [split | split]);
    try first [ apply Hkeep | apply Hnew ].
  all: try (repeat (apply Forall_cons; split; [rewrite Hattrs; vm_compute; reflexivity |]);
            by constructor).
  all: intros k Hk; rewrite Hattrs; cbn in Hk; rewrite !not_elem_of_cons in Hk;
    destruct Hk as (?&?&?&?&?&?&?&?&?&?&?&?&?&?&?&?&_);
    unfold rho_attrs, edpic_fields; by rewrite !lookup_insert_ne, lookup_empty.
Qed.

Lemma write_rho_cylindrical_attrs_and_frame_witness :
  (write_rho_cylindrical (full 1 2 0%float) (full 2 2 (Complex 0 0)) example_root).2 !! []
  = example_root !! [].
Proof.
  pose proof (write_rho_cylindrical_attrs_and_frame example_root "/data/0/" "fields/"
                (full 1 2 0%float) (full 2 2 (Complex 0 0))) as H.
  destruct H as (_ & Hkeep & _); [vm_compute; reflexivity ..|].
  destruct (example_root !! []) as [r|] eqn:Hr; [| by vm_compute in Hr].
  by apply Hkeep.
Defined.

(** X13: each component dataset of E holds its own source array, every
    element rounded to single precision; a source of single-precision values
    is stored as it is.  The lengths and shapes of the three sources are not
    compared with each other. *)
Theorem write_e_2d_cartesian_data (f : h5file) (bp fp : string)
    (data_ex data_ey data_ez : ndarray float) :
  root_attr f "basePath" = Some (AStr bp) →
  root_attr f "fieldsPath" = Some (AStr fp) →
  let pe := parse_path (bp +:+ fp +:+ "E/") in
  vacant f pe →
  let g := (write_e_2d_cartesian data_ex data_ey data_ez f).2 in
  data_at g (pe ++ ["x"]) = Some (to_f4 <$> data data_ex)
  ∧ data_at g (pe ++ ["y"]) = Some (to_f4 <$> data data_ey)
  ∧ data_at g (pe ++ ["z"]) = Some (to_f4 <$> data data_ez)
  ∧ (Forall (λ v, to_f4 v = v) (data data_ex) →
     data_at g (pe ++ ["x"]) = Some (data data_ex))
  ∧ (Forall (λ v, to_f4 v = v) (data data_ey) →
     data_at g (pe ++ ["y"]) = Some (data data_ey))
  ∧ (Forall (λ v, to_f4 v = v) (data data_ez) →
     data_at g (pe ++ ["z"]) = Some (data data_ez)).
Proof.
  intros Hbp Hfp pe Hvac g. subst g.
  destruct (write_e_2d_cartesian_spec f bp fp data_ex data_ey data_ez Hbp Hfp Hvac)
    as (g & -> & _ & Hx & Hy & Hz & _).
  fold pe in Hx, Hy, Hz. cbn [snd]. unfold data_at. rewrite Hx, Hy, Hz.
  cbn [e_component].
  assert (∀ l : list float, Forall (λ v, to_f4 v = v) l → to_f4 <$> l = l) as Hid.
  { intros l Hl. induction Hl as [|v l Hv _ IH]; [done |].
    by rewrite fmap_cons, Hv, IH. }
  repeat split; try done; intros Hrep; by rewrite Hid.
Qed.

Lemma write_e_2d_cartesian_data_witness :
  data_at (write_e_2d_cartesian (full 32 64 1%float) (full 32 64 1%float)
             (full 32 64 1%float) example_root).2
    (parse_path ("/data/0/" +:+ "fields/" +:+ "E/") ++ ["x"])
  = Some (data (full 32 64 1%float)).
Proof.
  apply (write_e_2d_cartesian_data example_root "/data/0/" "fields/"
           (full 32 64 1%float) (full 32 64 1%float) (full 32 64 1%float));
    [vm_compute; reflexivity .. | by apply example_root_vacant |].
  apply Forall_forall. intros v Hv. apply elem_of_replicate in Hv as [-> _].
  vm_compute. reflexivity.
Defined.

(** X14: the group E carries thirteen attributes, the time and the PIC
    attributes among them; every node the file had is kept, and outside E
    the only new nodes are empty groups for the enclosing names that were
    missing. *)
Theorem write_e_2d_cartesian_attrs_and_frame (f : h5file) (bp fp : string)
    (data_ex data_ey data_ez : ndarray float) :
  root_attr f "basePath" = Some (AStr bp) →
  root_attr f "fieldsPath" = Some (AStr fp) →
  let pe := parse_path (bp +:+ fp +:+ "E/") in
  vacant f pe →
  let g := (write_e_2d_cartesian data_ex data_ey data_ez f).2 in
  (let written :=
      [ ("geometry", AStr "cartesian"); ("gridSpacing", AArray [1; 1]%float);
        ("gridGlobalOffset", AArray [0; 0]%float); ("gridUnitSI", AFloat 1);
        ("dataOrder", AStr "C");
        ("unitDimension", AArray [1; 1; -3; -1; 0; 0; 0]%float);
        ("fieldSolver", AStr "Yee"); ("fieldSolverOrder", AFloat 2);
        ("fieldSmoothing", AStr "none"); ("currentSmoothing", AStr "none");
        ("chargeCorrection", AStr "none");
        ("time", AFloat 0); ("timeUnitSI", AFloat 1e-9) ] in
   Forall (λ kv, attr_at g pe kv.1 = Some kv.2) written
   ∧ ∀ k, k ∉ written.*1 → attr_at g pe k = None)
  ∧ (∀ q n, f !! q = Some n → g !! q = Some n)
  ∧ (∀ q, f !! q = None → (∀ r, q ≠ pe ++ r) →
          g !! q = if bool_decide (q ∈ ancestors pe) then Some (Node Group ∅) else None).
Proof.
  intros Hbp Hfp pe Hvac g. subst g.
  destruct (write_e_2d_cartesian_spec f bp fp data_ex data_ey data_ez Hbp Hfp Hvac)
    as (g & -> & He & _ & _ & _ & Hother).
  fold pe in He, Hother. cbn [snd]. unfold attr_at. rewrite He.
  cbn [mbind option_bind attrs]. split; [split | split].
  - repeat (apply Forall_cons; split; [vm_compute; reflexivity |]). constructor.
  - intros k Hk. cbn in Hk. rewrite !not_elem_of_cons in Hk.
    destruct Hk as (?&?&?&?&?&?&?&?&?&?&?&?&?&_).
    unfold e_attrs, edpic_fields. by rewrite !lookup_insert_ne, lookup_empty.
  - intros q n Hq.
    assert (∀ r, q ≠ pe ++ r) as Hout.
    { intros r ->. destruct Hvac as [Hb _]. rewrite Hb in Hq. done. }
    rewrite Hother; [by apply with_ancestors_keeps | ..]; try apply Hout.
    rewrite <-(app_nil_r pe). apply Hout.
  - intros q Hq Hout.
    rewrite Hother; [by rewrite with_ancestors_lookup, Hq | ..]; try apply Hout.
    rewrite <-(app_nil_r pe). apply Hout.
Qed.

Lemma write_e_2d_cartesian_attrs_and_frame_witness :
  (write_e_2d_cartesian (full 1 2 1%float) (full 1 2 1%float) (full 1 2 1%float)
     example_root).2 !! []
  = example_root !! [].
Proof.
  pose proof (write_e_2d_cartesian_attrs_and_frame example_root "/data/0/" "fields/"
                (full 1 2 1%float) (full 1 2 1%float) (full 1 2 1%float)) as H.
  destruct H as (_ & Hkeep & _);
    [vm_compute; reflexivity .. | by apply example_root_vacant |].
  destruct (example_root !! []) as [r|] eqn:Hr; [| by vm_compute in Hr].
  by apply Hkeep.
Defined.

(** X15: [write_particles] keeps every node the file had; outside the
    species the only new nodes are empty groups for the enclosing names that
    were missing. *)
Theorem write_particles_frame (f : h5file) (bp pp : string) :
  root_attr f "basePath" = Some (AStr bp) →
  root_attr f "particlesPath" = Some (AStr pp) →
  let pel := parse_path ((bp +:+ pp) +:+ "electrons") in
  vacant f pel →
  let g := (write_particles f).2 in
  (∀ q n, f !! q = Some n → g !! q = Some n)
  ∧ (∀ q, f !! q = None → (∀ r, q ≠ pel ++ r) →
          g !! q = if bool_decide (q ∈ ancestors pel) then Some (Node Group ∅) else None).
Proof.
  intros Hbp Hpp pel Hvac g. subst g.
  destruct (write_particles_spec f bp pp Hbp Hpp Hvac)
    as (g & -> & _ & _ & _ & Hother).
  fold pel in Hother. cbn [snd]. split.
  - intros q n Hq.
    assert (∀ r, q ≠ pel ++ r) as Hout.
    { intros r ->. destruct Hvac as [Hb _]. rewrite Hb in Hq. done. }
    rewrite Hother; [by apply with_ancestors_keeps | ..]; try apply Hout.
    rewrite <-(app_nil_r pel). apply Hout.
  - intros q Hq Hout.
    rewrite Hother; [by rewrite with_ancestors_lookup, Hq | ..]; try apply Hout.
    rewrite <-(app_nil_r pel). apply Hout.
Qed.

Lemma write_particles_frame_witness :
  (write_particles example_root).2 !! [] = example_root !! [].
Proof.
  pose proof (write_particles_frame example_root "/data/0/" "particles/") as H.
  destruct H as (Hkeep & _);
    [vm_compute; reflexivity .. | by apply example_root_vacant |].
  destruct (example_root !! []) as [r|] eqn:Hr; [| by vm_compute in Hr].
  by apply Hkeep.
Defined.

(** ** The two field writers together *)

Section apart.
Implicit Types (f : h5file) (p q : path) (acc u w : string).

Lemma string_app_nil_r u : u +:+ "" = u.
Proof. induction u as [|c u IH]; [done |]. by rewrite string_app_cons, IH. Qed.

Lemma string_app_not_nil u w : w ≠ "" → u +:+ w ≠ "".
Proof. intros Hw. by destruct u. Qed.

(** A string without slash is read as one component, after what is open. *)
Lemma split_path_slashless acc w :
  no_slash w = true → w ≠ "" → split_path acc w = [acc +:+ w].
Proof.
  revert acc. induction w as [|c w IH]; intros acc Hw Hne; [done |].
  simpl in Hw. apply andb_true_iff in Hw as [Hc Hw]. apply negb_true_iff in Hc.
  simpl. rewrite Hc. destruct w as [|c' w].
  - simpl. by destruct (acc +:+ String c "") eqn:Hacc;
      [apply string_app_not_nil in Hacc |].
  - rewrite IH by done. by rewrite string_app_assoc.
Qed.

(** What is read of [u +:+ w] before the last component does not depend on
    the slashless [w] that is appended. *)
Lemma split_path_last acc u :
  ∃ (C : path) (a : string), ∀ w,
    no_slash w = true → w ≠ "" → split_path acc (u +:+ w) = C ++ [a +:+ w].
Proof.
  revert acc. induction u as [|c u IH]; intros acc.
  - exists [], acc. intros w Hw Hne. by apply split_path_slashless.
  - destruct (Ascii.eqb c "/") eqn:Hc.
    + destruct (IH "") as (C & a & HC).
      exists (match acc with EmptyString => C | _ => acc :: C end), a.
      intros w Hw Hne. rewrite string_app_cons. simpl. rewrite Hc.
      rewrite HC by done. by destruct acc.
    + destruct (IH (acc +:+ String c "")) as (C & a & HC).
      exists C, a. intros w Hw Hne. rewrite string_app_cons. simpl. rewrite Hc.
      by apply HC.
Qed.

(** The names of rho and of E are siblings: as long as each other, and not
    the same. *)
Lemma fields_paths_apart (bp fp : string) :
  length (parse_path (bp +:+ fp +:+ "E/")) = length (parse_path (bp +:+ fp +:+ "rho"))
  ∧ parse_path (bp +:+ fp +:+ "E/") ≠ parse_path (bp +:+ fp +:+ "rho").
Proof.
  destruct (split_path_last "" (bp +:+ fp)) as (C & a & HC).
  assert (parse_path (bp +:+ fp +:+ "rho") = C ++ [a +:+ "rho"]) as ->.
  { rewrite <-string_app_assoc. by apply HC. }
  assert (parse_path (bp +:+ fp +:+ "E/") = C ++ [a +:+ "E"]) as ->.
  { change "E/" with ("E" +:+ "/"). rewrite <-!string_app_assoc.
    rewrite parse_path_trailing. by apply HC. }
  split; [by rewrite !length_app |].
  intros Heq%app_inv_head. injection Heq as Heq.
  by apply (inj (String.app a)) in Heq.
Qed.

(** A link made at [p] leaves a sibling name vacant. *)
Lemma vacant_after_create f p q (n : node) :
  vacant f q → length q = length p → q ≠ p →
  vacant (<[p := n]> (with_ancestors f p)) q.
Proof.
  intros [Hbelow Hanc] Hlen Hne. split.
  - intros r. rewrite lookup_insert_ne.
    + rewrite with_ancestors_outside; [apply Hbelow |].
      intros H%ancestors_shorter. rewrite length_app in H. lia.
    + intros Heq. destruct r as [|x r]; [by rewrite app_nil_r in Heq |].
      apply (f_equal length) in Heq. rewrite length_app in Heq. simpl in Heq. lia.
  - intros a Ha. unfold is_dataset. rewrite lookup_insert_ne.
    + by apply (with_ancestors_not_dataset f p a), Hanc.
    + intros ->. apply ancestors_shorter in Ha. lia.
Qed.

Lemma root_attr_after_create f p (n : node) k v :
  root_attr f k = Some v → f !! p = None →
  root_attr (<[p := n]> (with_ancestors f p)) k = Some v.
Proof.
  intros Hk Hp. pose proof (root_attr_is_Some _ _ _ Hk) as Hroot.
  rewrite root_attr_insert, root_attr_with_ancestors; [done .. |].
  intros ->. destruct Hroot. congruence.
Qed.
End apart.

Section both_fields.
Implicit Types (f : h5file) (p q : path).

Lemma nil_not_child q (c : string) : [] ≠ q ++ [c].
Proof. by destruct q. Qed.

(** The run of rho and then E on a file prepared for both. *)
Lemma rho_then_e_spec f (bp fp : string) mode0 mode1 data_ex data_ey data_ez :
  root_attr f "basePath" = Some (AStr bp) →
  root_attr f "fieldsPath" = Some (AStr fp) →
  let p := parse_path (bp +:+ fp +:+ "rho") in
  let pe := parse_path (bp +:+ fp +:+ "E/") in
  creatable f p = true → vacant f pe →
  shape mode0 = shape mode1 →
  let g1 := <[p := Node (Dataset [3; (shape mode0).1; (shape mode0).2] F4
                           (rho_filled mode0 mode1)) rho_attrs]>
              (with_ancestors f p) in
  ∃ g,
  (write_rho_cylindrical mode0 mode1 ;; write_e_2d_cartesian data_ex data_ey data_ez) f
  = (Ok (), g)
  ∧ g !! p = g1 !! p
  ∧ g !! pe = Some (Node Group e_attrs)
  ∧ g !! (pe ++ ["x"]) = Some (e_component data_ex [0; 0.5]%float)
  ∧ g !! (pe ++ ["y"]) = Some (e_component data_ey [0.5; 0]%float)
  ∧ g !! (pe ++ ["z"]) = Some (e_component data_ez [0; 0]%float)
  ∧ (∀ q, q ≠ pe → q ≠ pe ++ ["x"] → q ≠ pe ++ ["y"] → q ≠ pe ++ ["z"] →
          g !! q = with_ancestors g1 pe !! q).
Proof.
  intros Hbp Hfp p pe Hc Hvac Hs g1.
  destruct (fields_paths_apart bp fp) as [Hlen Hne]. fold p pe in Hlen, Hne.
  pose proof (proj1 (creatable_spec f p) Hc) as [Hp _].
  assert (root_attr g1 "basePath" = Some (AStr bp)) as Hbp1
    by (by apply root_attr_after_create).
  assert (root_attr g1 "fieldsPath" = Some (AStr fp)) as Hfp1
    by (by apply root_attr_after_create).
  assert (vacant g1 pe) as Hvac1 by (by apply vacant_after_create).
  destruct (write_e_2d_cartesian_spec g1 bp fp data_ex data_ey data_ez Hbp1 Hfp1 Hvac1)
    as (g & Hrun & He & Hx & Hy & Hz & Hother).
  fold pe in He, Hx, Hy, Hz, Hother.
  exists g. split; [| split; [| done]].
  - rewrite bind_eq, (write_rho_cylindrical_spec f bp fp mode0 mode1 Hbp Hfp Hc).
    fold p. rewrite bool_decide_eq_false_2 by (by intros []). exact Hrun.
  - assert (is_Some (g1 !! p)) as [n Hn]
      by (subst g1; rewrite lookup_insert_eq; eauto).
    rewrite Hother, Hn; [by apply with_ancestors_keeps | ..];
      try done; intros Heq; apply (f_equal length) in Heq;
      rewrite length_app in Heq; simpl in Heq; lia.
Qed.
End both_fields.

(** X16: on a file prepared for both, whose names of rho and of E have no
    component ["."], rho and then E, for equal-shaped rho arrays, both return
    normally; the file then holds rho with its three rounded layers and E
    with its three rounded components. *)
Theorem fields_written_together (f : h5file) (bp fp : string)
    (mode0 : ndarray float) (mode1 : ndarray complex)
    (data_ex data_ey data_ez : ndarray float) :
  root_attr f "basePath" = Some (AStr bp) →
  root_attr f "fieldsPath" = Some (AStr fp) →
  let p := parse_path (bp +:+ fp +:+ "rho") in
  let pe := parse_path (bp +:+ fp +:+ "E/") in
  "." ∉ p → "." ∉ pe →
  creatable f p = true → vacant f pe →
  array_wf mode0 → array_wf mode1 → shape mode0 = shape mode1 →
  let run := (write_rho_cylindrical mode0 mode1 ;;
              write_e_2d_cartesian data_ex data_ey data_ez) f in
  run.1 = Ok ()
  ∧ shape_at run.2 p = Some [3; (shape mode0).1; (shape mode0).2]
  ∧ data_at run.2 p
    = Some ((to_f4 <$> data mode0) ++ (to_f4 <$> data (real mode1))
              ++ (to_f4 <$> data (imag mode1)))
  ∧ is_group run.2 pe = true
  ∧ shape_at run.2 (pe ++ ["x"]) = Some [(shape data_ex).1; (shape data_ex).2]
  ∧ data_at run.2 (pe ++ ["x"]) = Some (to_f4 <$> data data_ex)
  ∧ data_at run.2 (pe ++ ["y"]) = Some (to_f4 <$> data data_ey)
  ∧ data_at run.2 (pe ++ ["z"]) = Some (to_f4 <$> data data_ez).
Proof.
  intros Hbp Hfp p pe _ _ Hc Hvac Hw0 Hw1 Hs run. subst run.
  destruct (rho_then_e_spec f bp fp mode0 mode1 data_ex data_ey data_ez
              Hbp Hfp Hc Hvac Hs) as (g & -> & Hp & He & Hx & Hy & Hz & _).
  fold p pe in Hp, He, Hx, Hy, Hz. cbn [fst snd].
  rewrite lookup_insert_eq in Hp.
  unfold shape_at, data_at, is_group. rewrite Hp, He, Hx, Hy, Hz.
  cbn [e_component]. by rewrite (rho_filled_layers mode0 mode1 Hw0 Hw1 Hs).
Qed.

Lemma fields_written_together_witness :
  ((write_rho_cylindrical (full 2 3 0.5%float) (full 2 3 (Complex 1 2)) ;;
    write_e_2d_cartesian (full 2 3 1%float) (full 1 1 1%float) (full 4 2 1%float))
     example_root).1
  = Ok ().
Proof.
  apply (fields_written_together example_root "/data/0/" "fields/");
    try (vm_compute; reflexivity).
  - change (parse_path ("/data/0/" +:+ "fields/" +:+ "rho"))
      with ["data"; "0"; "fields"; "rho"].
    rewrite !not_elem_of_cons. repeat split; (done || apply not_elem_of_nil).
  - change (parse_path ("/data/0/" +:+ "fields/" +:+ "E/"))
      with ["data"; "0"; "fields"; "E"].
    rewrite !not_elem_of_cons. repeat split; (done || apply not_elem_of_nil).
  - by apply example_root_vacant.
Defined.

(** X17: when the rho arrays differ in shape the script stops there: the
    error passes through, rho is left created and zero-filled, and nothing
    of E is written. *)
Theorem fields_stop_at_mismatch (f : h5file) (bp fp : string)
    (mode0 : ndarray float) (mode1 : ndarray complex)
    (data_ex data_ey data_ez : ndarray float) :
  root_attr f "basePath" = Some (AStr bp) →
  root_attr f "fieldsPath" = Some (AStr fp) →
  let p := parse_path (bp +:+ fp +:+ "rho") in
  let pe := parse_path (bp +:+ fp +:+ "E/") in
  creatable f p = true → vacant f pe →
  shape mode0 ≠ shape mode1 →
  let run := (write_rho_cylindrical mode0 mode1 ;;
              write_e_2d_cartesian data_ex data_ey data_ez) f in
  run.1 = Raise shape_mismatch
  ∧ run.2 = (write_rho_cylindrical mode0 mode1 f).2
  ∧ is_dataset run.2 p = true
  ∧ ∀ r, run.2 !! (pe ++ r) = None.
Proof.
  intros Hbp Hfp p pe Hc Hvac Hs run. subst run.
  destruct (fields_paths_apart bp fp) as [Hlen Hne]. fold p pe in Hlen, Hne.
  rewrite bind_eq, (write_rho_cylindrical_spec f bp fp mode0 mode1 Hbp Hfp Hc).
  fold p. rewrite bool_decide_eq_true_2 by done. cbn [fst snd].
  repeat split; try done.
  - unfold is_dataset. by rewrite lookup_insert_eq.
  - by apply vacant_after_create.
Qed.

Lemma fields_stop_at_mismatch_witness :
  ((write_rho_cylindrical (full 2 3 0.5%float) (full 3 2 (Complex 1 2)) ;;
    write_e_2d_cartesian (full 2 3 1%float) (full 2 3 1%float) (full 2 3 1%float))
     example_root).1
  = Raise shape_mismatch.
Proof.
  apply (fields_stop_at_mismatch example_root "/data/0/" "fields/");
    try (vm_compute; reflexivity); [by apply example_root_vacant | done].
Defined.

(** X18: the two field writers do not depend on each other: for
    equal-shaped rho arrays, E and then rho gives the same result and the
    same file as rho and then E. *)
Theorem fields_commute (f : h5file) (bp fp : string)
    (mode0 : ndarray float) (mode1 : ndarray complex)
    (data_ex data_ey data_ez : ndarray float) :
  root_attr f "basePath" = Some (AStr bp) →
  root_attr f "fieldsPath" = Some (AStr fp) →
  creatable f (parse_path (bp +:+ fp +:+ "rho")) = true →
  vacant f (parse_path (bp +:+ fp +:+ "E/")) →
  shape mode0 = shape mode1 →
  (write_e_2d_cartesian data_ex data_ey data_ez ;; write_rho_cylindrical mode0 mode1) f
  = (write_rho_cylindrical mode0 mode1 ;;
     write_e_2d_cartesian data_ex data_ey data_ez) f.
Proof.
  intros Hbp Hfp Hc Hvac Hs.
  destruct (rho_then_e_spec f bp fp mode0 mode1 data_ex data_ey data_ez
              Hbp Hfp Hc Hvac Hs) as (gA & -> & Hp & He & Hx & Hy & Hz & HA).
  destruct (write_e_2d_cartesian_spec f bp fp data_ex data_ey data_ez Hbp Hfp Hvac)
    as (gB & HrunB & HeB & HxB & HyB & HzB & HB).
  set (p := parse_path (bp +:+ fp +:+ "rho")) in *.
  set (pe := parse_path (bp +:+ fp +:+ "E/")) in *.
  destruct (fields_paths_apart bp fp) as [Hlen Hne]. fold p pe in Hlen, Hne.
  pose proof (proj1 (creatable_spec f p) Hc) as [Hpf Hancf].
  assert (∀ c : string, p ≠ pe ++ [c]) as Hpc.
  { intros c Heq. apply (f_equal length) in Heq. rewrite length_app in Heq.
    simpl in Heq. lia. }
  assert (∀ a c, a ∈ ancestors p → a ≠ pe ++ [c]) as Hac.
  { intros a c Ha%ancestors_shorter ->. rewrite length_app in Ha. simpl in Ha. lia. }
  assert (∀ a, a ∈ ancestors p → a ≠ pe) as Hae.
  { intros a Ha%ancestors_shorter ->. lia. }
  assert ([] ≠ pe) as Hroot.
  { intros Heq. destruct Hvac as [Hb _]. specialize (Hb []).
    rewrite app_nil_r, <-Heq in Hb.
    apply root_attr_is_Some in Hbp as [r Hr]. congruence. }
  (* E first leaves the name of rho free *)
  assert (root_attr gB "basePath" = Some (AStr bp)) as HbpB.
  { pose proof (root_attr_is_Some _ _ _ Hbp) as [r Hr].
    unfold root_attr, attr_at in *.
    rewrite HB, (with_ancestors_keeps f pe [] r Hr);
      [by rewrite Hr in Hbp | done | apply nil_not_child ..]. }
  assert (root_attr gB "fieldsPath" = Some (AStr fp)) as HfpB.
  { pose proof (root_attr_is_Some _ _ _ Hfp) as [r Hr].
    unfold root_attr, attr_at in *.
    rewrite HB, (with_ancestors_keeps f pe [] r Hr);
      [by rewrite Hr in Hfp | done | apply nil_not_child ..]. }
  assert (creatable gB p = true) as HcB.
  { apply creatable_spec. split.
    - rewrite HB by (done || apply Hpc).
      rewrite with_ancestors_outside; [done |].
      intros H%ancestors_shorter. lia.
    - intros a Ha. unfold is_dataset.
      rewrite HB by (by apply Hae || by apply Hac).
      apply (with_ancestors_not_dataset f pe a), Hancf, Ha. }
  rewrite bind_eq, HrunB.
  rewrite (write_rho_cylindrical_spec gB bp fp mode0 mode1 HbpB HfpB HcB). fold p.
  rewrite bool_decide_eq_false_2 by (by intros []).
  f_equal. apply map_eq. intros q.
  destruct (decide (q = p)) as [->|Hqp]; [by rewrite Hp, !lookup_insert_eq |].
  rewrite lookup_insert_ne by done.
  destruct (decide (q = pe)) as [->|Hqe].
  { by rewrite He, (with_ancestors_keeps gB p pe _ HeB). }
  destruct (decide (q = pe ++ ["x"])) as [->|Hqx].
  { by rewrite Hx, (with_ancestors_keeps gB p _ _ HxB). }
  destruct (decide (q = pe ++ ["y"])) as [->|Hqy].
  { by rewrite Hy, (with_ancestors_keeps gB p _ _ HyB). }
  destruct (decide (q = pe ++ ["z"])) as [->|Hqz].
  { by rewrite Hz, (with_ancestors_keeps gB p _ _ HzB). }
  rewrite HA by done. rewrite !with_ancestors_lookup, HB by done.
  rewrite lookup_insert_ne by done. rewrite !with_ancestors_lookup.
  destruct (f !! q); [done |]. by repeat case_bool_decide.
Qed.

Lemma fields_commute_witness :
  (write_e_2d_cartesian (full 2 3 1%float) (full 2 3 1%float) (full 2 3 1%float) ;;
   write_rho_cylindrical (full 2 3 0.5%float) (full 2 3 (Complex 1 2))) example_root
  = (write_rho_cylindrical (full 2 3 0.5%float) (full 2 3 (Complex 1 2)) ;;
     write_e_2d_cartesian (full 2 3 1%float) (full 2 3 1%float) (full 2 3 1%float))
      example_root.
Proof.
  apply (fields_commute example_root "/data/0/" "fields/");
    try (vm_compute; reflexivity).
  by apply example_root_vacant.
Defined.

(** ** From a new file to the two fields *)

Section pipeline.
Implicit Types (f : h5file) (p q : path) (s : string).

Lemma no_slash_pretty_N_go (x : N) s :
  no_slash s = true → no_slash (pretty_N_go x s) = true.
Proof.
  revert s. induction (N.lt_wf_0 x) as [x _ IH]; intros s Hs.
  assert (x = 0 ∨ 0 < x)%N as [->|Hx] by lia; [by rewrite pretty_N_go_0 |].
  rewrite pretty_N_go_step by done. apply IH; [by apply N.div_lt |].
  simpl. rewrite Hs. unfold pretty_N_char. by repeat case_match.
Qed.

Lemma pretty_N_go_not_nil (x : N) s : s ≠ "" → pretty_N_go x s ≠ "".
Proof.
  revert s. induction (N.lt_wf_0 x) as [x _ IH]; intros s Hs.
  assert (x = 0 ∨ 0 < x)%N as [->|Hx] by lia; [by rewrite pretty_N_go_0 |].
  rewrite pretty_N_go_step by done. apply IH; [by apply N.div_lt | done].
Qed.

Lemma pretty_N_component (x : N) : no_slash (pretty x) = true ∧ pretty x ≠ "".
Proof.
  unfold pretty, pretty_N. case_decide as Hx; [done |]. split.
  - by apply no_slash_pretty_N_go.
  - rewrite pretty_N_go_step by lia. by apply pretty_N_go_not_nil.
Qed.

(** The decimal of an iteration is one path component. *)
Lemma pretty_Z_component (i : Z) : no_slash (pretty i) = true ∧ pretty i ≠ "".
Proof.
  destruct i as [|x|x]; [done | apply (pretty_N_component (Npos x)) |].
  destruct (pretty_N_component (Npos x)) as [Hs Hne].
  unfold pretty, pretty_Z. split; [exact Hs | done].
Qed.

Lemma base_path_parse s (rest : string) :
  no_slash s = true → s ≠ "" →
  parse_path (("/data/" +:+ s +:+ "/") +:+ rest) = "data" :: s :: parse_path rest.
Proof.
  intros Hs Hne. rewrite !string_app_assoc. unfold parse_path.
  change (split_path "" ("/data/" +:+ s +:+ "/" +:+ rest))
    with ("data" :: split_path "" (s +:+ String "/" rest)).
  by rewrite split_path_slash, split_path_slashless.
Qed.

Lemma setup_root_attr_new (i : Z) (now : datetime) :
  setup_root_attr i now empty_file
  = (Ok (), {[ [] := Node Group (root_attrs i now ∅) ]}).
Proof.
  rewrite (setup_root_attr_root_attrs i now empty_file (Node Group ∅)) by done.
  unfold empty_file. by rewrite insert_singleton_eq.
Qed.

Lemma only_root_vacant (r : node) q :
  content_of r = Group → q ≠ [] → vacant ({[ [] := r ]} : h5file) q.
Proof.
  intros Hr Hq. split.
  - intros t. apply lookup_singleton_ne. by destruct q.
  - intros a _. unfold is_dataset. destruct (decide (a = [])) as [->|Ha].
    + rewrite lookup_singleton_eq. destruct r as [[] ?]; done.
    + by rewrite lookup_singleton_ne.
Qed.

(** The run of the three writers on a new file. *)
Lemma pipeline_spec (i : Z) (now : datetime) mode0 mode1 data_ex data_ey data_ez :
  shape mode0 = shape mode1 →
  let fields := ["data"; pretty i; "fields"] in
  ∃ g,
  (setup_root_attr i now ;; write_rho_cylindrical mode0 mode1 ;;
   write_e_2d_cartesian data_ex data_ey data_ez) empty_file = (Ok (), g)
  ∧ g !! [] = Some (Node Group (root_attrs i now ∅))
  ∧ g !! (fields ++ ["rho"])
    = Some (Node (Dataset [3; (shape mode0).1; (shape mode0).2] F4
                    (rho_filled mode0 mode1)) rho_attrs)
  ∧ g !! (fields ++ ["E"]) = Some (Node Group e_attrs)
  ∧ g !! (fields ++ ["E"; "x"]) = Some (e_component data_ex [0; 0.5]%float)
  ∧ g !! (fields ++ ["E"; "y"]) = Some (e_component data_ey [0.5; 0]%float)
  ∧ g !! (fields ++ ["E"; "z"]) = Some (e_component data_ez [0; 0]%float)
  ∧ g !! ["data"] = Some (Node Group ∅)
  ∧ g !! ["data"; pretty i] = Some (Node Group ∅)
  ∧ g !! fields = Some (Node Group ∅)
  ∧ (∀ q, q ∉ [ []; ["data"]; ["data"; pretty i]; fields; fields ++ ["rho"];
                fields ++ ["E"]; fields ++ ["E"; "x"]; fields ++ ["E"; "y"];
                fields ++ ["E"; "z"] ] → g !! q = None).
Proof.
  intros Hs fields. destruct (pretty_Z_component i) as [Hslash Hne].
  set (bp := "/data/" +:+ pretty i +:+ "/").
  set (f1 := ({[ [] := Node Group (root_attrs i now ∅) ]} : h5file)).
  assert (parse_path (bp +:+ "fields/" +:+ "rho") = fields ++ ["rho"]) as Hp
    by (by apply base_path_parse).
  assert (parse_path (bp +:+ "fields/" +:+ "E/") = fields ++ ["E"]) as Hpe
    by (by apply base_path_parse).
  assert (root_attr f1 "basePath" = Some (AStr bp)) as Hbp.
  { unfold root_attr, attr_at, f1. rewrite lookup_singleton_eq. done. }
  assert (root_attr f1 "fieldsPath" = Some (AStr "fields/")) as Hfp.
  { unfold root_attr, attr_at, f1. rewrite lookup_singleton_eq. done. }
  assert (creatable f1 (parse_path (bp +:+ "fields/" +:+ "rho")) = true) as Hc.
  { rewrite Hp. by apply vacant_child_creatable, only_root_vacant. }
  assert (vacant f1 (parse_path (bp +:+ "fields/" +:+ "E/"))) as Hvac.
  { rewrite Hpe. by apply only_root_vacant. }
  destruct (rho_then_e_spec f1 bp "fields/" mode0 mode1 data_ex data_ey data_ez
              Hbp Hfp Hc Hvac Hs) as (g & Hrun & Hrho & He & Hx & Hy & Hz & Hother).
  rewrite Hp, Hpe in *. rewrite <-!app_assoc in Hx, Hy, Hz, Hother.
  rewrite lookup_insert_eq in Hrho.
  assert (∀ q, q ≠ fields ++ ["rho"] → q ≠ fields ++ ["E"] →
               q ≠ fields ++ ["E"; "x"] → q ≠ fields ++ ["E"; "y"] →
               q ≠ fields ++ ["E"; "z"] →
               g !! q = if bool_decide (q ∈ [ []; ["data"]; ["data"; pretty i]; fields ])
                        then Some (Node Group (if bool_decide (q = [])
                                               then root_attrs i now ∅ else ∅))
                        else None) as Hrest.
  { intros q H1 H2 H3 H4 H5. rewrite Hother by done.
    rewrite with_ancestors_lookup, lookup_insert_ne by done.
    rewrite with_ancestors_lookup.
    change (ancestors (fields ++ ["rho"]))
      with [ []; ["data"]; ["data"; pretty i]; fields ].
    change (ancestors (fields ++ ["E"]))
      with [ []; ["data"]; ["data"; pretty i]; fields ].
    destruct (decide (q = [])) as [->|Hq].
    - unfold f1. rewrite lookup_singleton_eq.
      by rewrite !bool_decide_eq_true_2 by (done || left).
    - unfold f1. rewrite lookup_singleton_ne by done.
      rewrite (bool_decide_eq_false_2 (q = [])) by done.
      by case_bool_decide. }
  exists g. split.
  { rewrite bind_eq, setup_root_attr_new. exact Hrun. }
  split; [by rewrite Hrest | ].
  do 5 (split; [done |]).
  split; [rewrite Hrest by done; by rewrite bool_decide_eq_true_2 by set_solver |].
  split; [rewrite Hrest by done; by rewrite bool_decide_eq_true_2 by set_solver |].
  split; [rewrite Hrest by done; by rewrite bool_decide_eq_true_2 by set_solver |].
  intros q Hq. rewrite !not_elem_of_cons in Hq.
  destruct Hq as (?&?&?&?&?&?&?&?&?&_).
  rewrite Hrest by done. rewrite bool_decide_eq_false_2; [done |].
  rewrite !not_elem_of_cons. repeat split; (done || apply not_elem_of_nil).
Qed.
End pipeline.

Lemma bind_ok_inv {A B} (m : H5 A) (k : A → H5 B) (f g : h5file) (b : B) :
  (m ≫= k) f = (Ok b, g) → ∃ a f', m f = (Ok a, f') ∧ k a f' = (Ok b, g).
Proof. rewrite bind_eq. destruct (m f) as [[a|e] f']; [by eauto | done]. Qed.

Lemma three_layers (hw : nat) (a b c : list float) :
  length a = hw → length b = hw → length c = hw →
  take hw (drop (0 * hw) (a ++ b ++ c)) = a
  ∧ take hw (drop (1 * hw) (a ++ b ++ c)) = b
  ∧ take hw (drop (2 * hw) (a ++ b ++ c)) = c.
Proof.
  intros Ha Hb Hc. repeat split.
  - rewrite Nat.mul_0_l, drop_0. by rewrite take_app_length'.
  - rewrite Nat.mul_1_l, drop_app_length' by lia. by rewrite take_app_length'.
  - rewrite (app_assoc a b c), drop_app_length' by (rewrite length_app; lia).
    by rewrite take_ge by lia.
Qed.

(** X19: for every iteration [i], every clock and all arrays with
    equal-shaped rho arrays, the three writers run one after the other on a
    new file return normally, and the file holds exactly nine links: the
    root, the groups data, data/<i> and data/<i>/fields, the dataset rho, the
    group E and its datasets x, y, z, where <i> is [i] in decimal. *)
Theorem writers_on_new_file (i : Z) (now : datetime) (mode0 : ndarray float)
    (mode1 : ndarray complex) (data_ex data_ey data_ez : ndarray float) :
  shape mode0 = shape mode1 →
  let run := (setup_root_attr i now ;; write_rho_cylindrical mode0 mode1 ;;
              write_e_2d_cartesian data_ex data_ey data_ez) empty_file in
  let fields := ["data"; pretty i; "fields"] in
  run.1 = Ok ()
  ∧ (∀ q, is_Some (run.2 !! q)
          ↔ q ∈ [ []; ["data"]; ["data"; pretty i]; fields; fields ++ ["rho"];
                  fields ++ ["E"]; fields ++ ["E"; "x"]; fields ++ ["E"; "y"];
                  fields ++ ["E"; "z"] ])
  ∧ Forall (λ q, is_group run.2 q = true)
      [ []; ["data"]; ["data"; pretty i]; fields; fields ++ ["E"] ]
  ∧ shape_at run.2 (fields ++ ["rho"]) = Some [3; (shape mode0).1; (shape mode0).2]
  ∧ shape_at run.2 (fields ++ ["E"; "x"]) = Some [(shape data_ex).1; (shape data_ex).2]
  ∧ shape_at run.2 (fields ++ ["E"; "y"]) = Some [(shape data_ey).1; (shape data_ey).2]
  ∧ shape_at run.2 (fields ++ ["E"; "z"]) = Some [(shape data_ez).1; (shape data_ez).2].
Proof.
  intros Hs run fields. subst run.
  destruct (pipeline_spec i now mode0 mode1 data_ex data_ey data_ez Hs)
    as (g & -> & Hroot & Hrho & He & Hx & Hy & Hz & Hd & Hdi & Hf & Hnone).
  fold fields in Hrho, He, Hx, Hy, Hz, Hf, Hnone. cbn [fst snd].
  split; [done |]. split.
  - intros q. split.
    + intros Hq.
      destruct (decide (q ∈ [ []; ["data"]; ["data"; pretty i]; fields;
                  fields ++ ["rho"]; fields ++ ["E"]; fields ++ ["E"; "x"];
                  fields ++ ["E"; "y"]; fields ++ ["E"; "z"] ])) as [|Hout];
        [done |].
      rewrite (Hnone q Hout) in Hq. by destruct Hq.
    + rewrite !elem_of_cons.
      intros [->|[->|[->|[->|[->|[->|[->|[->|[->|[]%elem_of_nil]]]]]]]]]; eauto.
  - unfold is_group, shape_at. rewrite Hrho, Hx, Hy, Hz.
    split; [| done]. repeat constructor; by rewrite ?Hroot, ?Hd, ?Hdi, ?Hf, ?He.
Qed.

Lemma writers_on_new_file_witness :
  ((setup_root_attr 42 example_clock ;;
    write_rho_cylindrical (full 2 3 0.5%float) (full 2 3 (Complex 1 2)) ;;
    write_e_2d_cartesian (full 2 3 1%float) (full 2 3 1%float) (full 2 3 1%float))
     empty_file).1
  = Ok ().
Proof.
  by apply (writers_on_new_file 42 example_clock (full 2 3 0.5%float)
              (full 2 3 (Complex 1 2))).
Defined.

(** X20: the script itself.  For every clock and all drawn arrays of shape
    32 x 64, [main] prints its last line; the file it leaves has rho of shape
    3 x 32 x 64, holding the rounded draws layer by layer, the three
    components of E of shape 32 x 64, and nothing below particles: the call
    of the species writer is commented out. *)
Theorem main_writes_fields (now : datetime) (data_rho0 : ndarray float)
    (data_rho1 : ndarray complex) (data_ex data_ey data_ez : ndarray float) :
  shape data_rho0 = (32, 64) → shape data_rho1 = (32, 64) →
  shape data_ex = (32, 64) → shape data_ey = (32, 64) → shape data_ez = (32, 64) →
  array_wf data_rho0 → array_wf data_rho1 →
  let run := main now data_rho0 data_rho1 data_ex data_ey data_ez in
  let fields := ["data"; "0"; "fields"] in
  run.1 = Ok "File example.h5 created!"
  ∧ root_attr run.2 "basePath" = Some (AStr "/data/0/")
  ∧ root_attr run.2 "date" = Some (AStr (strftime now))
  ∧ shape_at run.2 (fields ++ ["rho"]) = Some [3; 32; 64]
  ∧ layer run.2 (fields ++ ["rho"]) 0 = Some (to_f4 <$> data data_rho0)
  ∧ layer run.2 (fields ++ ["rho"]) 1 = Some (to_f4 <$> data (real data_rho1))
  ∧ layer run.2 (fields ++ ["rho"]) 2 = Some (to_f4 <$> data (imag data_rho1))
  ∧ Forall (λ c, shape_at run.2 (fields ++ ["E"; c]) = Some [32; 64]) ["x"; "y"; "z"]
  ∧ data_at run.2 (fields ++ ["E"; "x"]) = Some (to_f4 <$> data data_ex)
  ∧ data_at run.2 (fields ++ ["E"; "y"]) = Some (to_f4 <$> data data_ey)
  ∧ data_at run.2 (fields ++ ["E"; "z"]) = Some (to_f4 <$> data data_ez)
  ∧ (∀ r, run.2 !! (["data"; "0"; "particles"] ++ r) = None).
Proof.
  intros S0 S1 Sx Sy Sz W0 W1 run fields. subst run.
  assert (shape data_rho0 = shape data_rho1) as Hs by congruence.
  destruct (pipeline_spec 0 now data_rho0 data_rho1 data_ex data_ey data_ez Hs)
    as (g & Hrun & Hroot & Hrho & He & Hx & Hy & Hz & _ & _ & _ & Hnone).
  change (pretty 0%Z) with "0" in *. fold fields in Hrho, He, Hx, Hy, Hz, Hnone.
  apply bind_ok_inv in Hrun as ([] & f1 & Hsetup & Hrun).
  apply bind_ok_inv in Hrun as ([] & f2 & Hrho_run & He_run).
  unfold main. rewrite bind_eq, Hsetup, bind_eq, Hrho_run, bind_eq, He_run.
  cbn [fst snd mret H5_ret].
  destruct (three_layers (32 * 64) (to_f4 <$> data data_rho0)
              (to_f4 <$> data (real data_rho1)) (to_f4 <$> data (imag data_rho1)))
    as (L0 & L1 & L2).
  { rewrite length_fmap. unfold array_wf in W0. by rewrite S0 in W0. }
  { simpl. rewrite !length_fmap. unfold array_wf in W1. by rewrite S1 in W1. }
  { simpl. rewrite !length_fmap. unfold array_wf in W1. by rewrite S1 in W1. }
  rewrite <-(rho_filled_layers _ _ W0 W1 Hs) in L0, L1, L2.
  unfold e_component in Hx, Hy, Hz.
  rewrite S0 in Hrho. rewrite Sx in Hx. rewrite Sy in Hy. rewrite Sz in Hz.
  cbn [fst snd] in Hrho, Hx, Hy, Hz.
  assert (Forall (λ c, shape_at g (fields ++ ["E"; c]) = Some [32; 64])
            ["x"; "y"; "z"]) as HE.
  { unfold shape_at. repeat constructor; by rewrite ?Hx, ?Hy, ?Hz. }
  unfold root_attr, attr_at, shape_at, layer, data_at.
  rewrite Hroot, Hrho, Hx, Hy, Hz. cbn [mbind option_bind attrs].
  rewrite !bool_decide_eq_true_2 by lia. rewrite L0, L1, L2.
  do 7 (split; [done |]). split; [exact HE |].
  do 3 (split; [done |]).
  intros r. apply Hnone. rewrite !not_elem_of_cons.
  repeat split; (done || apply not_elem_of_nil).
Qed.

Lemma main_writes_fields_witness :
  (main example_clock (full 32 64 0.5%float) (full 32 64 (Complex 0.25 0.75))
     (full 32 64 0.5%float) (full 32 64 0.5%float) (full 32 64 0.5%float)).1
  = Ok "File example.h5 created!".
Proof.
  by apply (main_writes_fields example_clock (full 32 64 0.5%float)
              (full 32 64 (Complex 0.25 0.75)));
    try (vm_compute; reflexivity).
Defined.
